(** * XIRR core of the investment IRR calculator

    A shallow embedding of [src/utils/xirr.ts] (day count, NPV kernel,
    Newton-Raphson and Brent solvers, reconciler) and of the window builder
    [buildPeriodCashFlows] of [src/App.tsx].

    JavaScript numbers are IEEE-754 binary64 values: they are modelled by
    Rocq's primitive [float], whose operations are the IEEE ones.  What the
    program takes from the JavaScript runtime and is not arithmetic
    ([Math.pow], [Number.prototype.toFixed], the local time zone, string
    parsing) is a parameter of the model, collected in the classes
    [Xirr.Runtime] and [App.Parsing]. *)

From Stdlib Require Import ZArith List Bool String Ascii Floats Uint63 Lia.
From Stdlib Require Import Permutation Sorted DecimalString.
Import ListNotations.
Set Warnings "-inexact-float".

#[local] Open Scope float_scope.

(** ** JavaScript numbers *)

Module Js.

(** Number of a (small) integer, as the runtime converts a day count. *)
Definition ofZ (z : Z) : float :=
  if (z <? 0)%Z then - of_uint63 (Uint63.of_Z (- z)) else of_uint63 (Uint63.of_Z z).

(** [x > y] and [x >= y] of JavaScript. *)
Definition gtb (x y : float) : bool := y <? x.
Definition geb (x y : float) : bool := y <=? x.

(** [Number.isNaN]. *)
Definition isNaN (x : float) : bool := negb (x =? x).

(** Strings are sequences of code units, here below 256.  [WhiteSpace] and
    [LineTerminator] among them: tab, line feed, vertical tab, form feed,
    carriage return, space and no-break space. *)
Definition isWhiteSpace (c : ascii) : bool :=
  let n := nat_of_ascii c in
  ((9 <=? n) && (n <=? 13) || (n =? 32) || (n =? 160))%nat.

Fixpoint trimStart (s : string) : string :=
  match s with
  | EmptyString => EmptyString
  | String c s' => if isWhiteSpace c then trimStart s' else s
  end.

Fixpoint trimEnd (s : string) : string :=
  match s with
  | EmptyString => EmptyString
  | String c s' =>
      match trimEnd s' with
      | EmptyString => if isWhiteSpace c then EmptyString else String c EmptyString
      | t => String c t
      end
  end.

(** Truthiness of a string: it is not empty. *)
Definition truthy (s : string) : bool := negb (String.eqb s "").

(** [n.toString()] for an array index. *)
Definition indexToString (n : nat) : string := NilZero.string_of_uint (Nat.to_uint n).

(** [s.trim()]. *)
Definition trim (s : string) : string := trimEnd (trimStart s).

(** [s.split(sep)] for a separator of one character: the pieces between
    the separators, one more than there are separators. *)
Fixpoint split (sep : ascii) (s : string) : list string :=
  match s with
  | EmptyString => [EmptyString]
  | String c s' =>
      if Ascii.eqb c sep then EmptyString :: split sep s'
      else
        match split sep s' with
        | piece :: pieces => String c piece :: pieces
        | [] => [String c EmptyString]
        end
  end.

(** *** Time values

    The day number and the calendar of a time value, in milliseconds
    since 1970-01-01 UTC, over the proleptic Gregorian calendar. *)
Definition msPerDay : Z := 86400000.

(** [Day(t)]. *)
Definition Day (t : Z) : Z := (t / msPerDay)%Z.

(** The day number of the day [d] of the month [m], from 1 to 12, of the
    year [y], and year, month and day of a day number. *)
Definition daysFromCivil (y m d : Z) : Z :=
  let y' := (if m <=? 2 then y - 1 else y)%Z in
  let era := (y' / 400)%Z in
  let yoe := (y' - era * 400)%Z in
  let doy := ((153 * (if 2 <? m then m - 3 else m + 9) + 2) / 5 + d - 1)%Z in
  let doe := (yoe * 365 + yoe / 4 - yoe / 100 + doy)%Z in
  (era * 146097 + doe - 719468)%Z.

Definition civilFromDays (days : Z) : Z * Z * Z :=
  let z := (days + 719468)%Z in
  let era := (z / 146097)%Z in
  let doe := (z - era * 146097)%Z in
  let yoe := ((doe - doe / 1460 + doe / 36524 - doe / 146096) / 365)%Z in
  let doy := (doe - (365 * yoe + yoe / 4 - yoe / 100))%Z in
  let mp := ((5 * doy + 2) / 153)%Z in
  let d := (doy - (153 * mp + 2) / 5 + 1)%Z in
  let m := (if mp <? 10 then mp + 3 else mp - 9)%Z in
  ((if m <=? 2 then yoe + era * 400 + 1 else yoe + era * 400)%Z, m, d).

(** [YearFromTime(t)], [MonthFromTime(t)], from 0 to 11, and
    [DateFromTime(t)]. *)
Definition YearFromTime (t : Z) : Z := let '(y, _, _) := civilFromDays (Day t) in y.
Definition MonthFromTime (t : Z) : Z := let '(_, m, _) := civilFromDays (Day t) in (m - 1)%Z.
Definition DateFromTime (t : Z) : Z := let '(_, _, d) := civilFromDays (Day t) in d.

(** [MakeDay(year, month, date)] for a month from 0 to 11: the day number
    of the first of the month, plus [date - 1]. *)
Definition MakeDay (year month date : Z) : Z :=
  (daysFromCivil year (month + 1) 1 + date - 1)%Z.

(** [Date.UTC(year, month, date)]: a year from 0 to 99 stands for
    1900 + year; the time of day is 0. *)
Definition Date_UTC (year month date : Z) : Z :=
  let yr := (if (0 <=? year) && (year <=? 99) then 1900 + year else year)%Z in
  (MakeDay yr month date * msPerDay)%Z.

End Js.

(** Proofs unfold [Date.UTC] only where they reason about the calendar. *)
Opaque Js.Date_UTC.

(** ** xirr.ts *)

Module Xirr.

(** A [Date] holding a valid time value: milliseconds since the epoch
    (dates whose local day [Date.UTC] puts outside the range of time values,
    within a day of its ends, are left out). *)
Record Date := mkDate { getTime : Z }.

Record CashFlow := mkCashFlow {
  date : Date;
  amount : float;
  description : option string
}.

Record MethodResult := mkMethodResult {
  rate : float;
  ratePercent : string;
  iterations : nat;
  method : string;
  converged : bool;
  finalNPV : float
}.

Record XIRRResult := mkXIRRResult {
  xirr : float;
  xirrPercent : string;
  simpleReturn : float;
  simpleReturnPercent : string;
  annualized : bool;
  totalDays : Z;
  netCashFlow : float;
  firstCashFlow : float;
  lastCashFlow : float;
  totalInflows : float;
  totalOutflows : float;
  newtonRaphson : MethodResult;
  brent : MethodResult;
  hasDifference : bool;
  difference : float;
  differencePercent : string
}.

(** What xirr.ts takes from the runtime.  [Math_pow] is
    implementation-approximated in ECMAScript, [LocalTZA t] is the offset
    of local time from UTC at time [t], in milliseconds. *)
Class Runtime := {
  Math_pow : float -> float -> float;
  toFixed : float -> nat -> string;
  LocalTZA : Z -> Z
}.

Section Core.
Context {rt : Runtime}.

Definition msPerDay : Z := 1000 * 60 * 60 * 24.

(** [d.getFullYear()], [d.getMonth()] and [d.getDate()]: year, month
    (0 to 11) and day of the month of [d] in local time. *)
Definition LocalTime (d : Date) : Z := (getTime d + LocalTZA (getTime d))%Z.
Definition getFullYear (d : Date) : Z := Js.YearFromTime (LocalTime d).
Definition getMonth (d : Date) : Z := Js.MonthFromTime (LocalTime d).
Definition getDate (d : Date) : Z := Js.DateFromTime (LocalTime d).

(** Both [utc] values are multiples of [msPerDay] below 2^53 in
    magnitude, so the subtraction and the division of the source are
    exact in binary64: the day count is kept as an integer and becomes
    a number where the source divides it by 365.25. *)
Definition dateDiffInDays (date1 date2 : Date) : Z :=
  let utc1 := Js.Date_UTC (getFullYear date1) (getMonth date1) (getDate date1) in
  let utc2 := Js.Date_UTC (getFullYear date2) (getMonth date2) (getDate date2) in
  Z.abs ((utc2 - utc1) / msPerDay).

Definition calculateNPV (rate : float) (cashFlows : list CashFlow)
    (startDate : Date) : float :=
  fold_left
    (fun npv flow =>
       let days := dateDiffInDays startDate (date flow) in
       let years := Js.ofZ days / 365.25 in
       npv + amount flow / Math_pow (1 + rate) years)
    cashFlows 0.

Definition calculateDerivativeNPV (rate : float) (cashFlows : list CashFlow)
    (startDate : Date) : float :=
  fold_left
    (fun dnpv flow =>
       let days := dateDiffInDays startDate (date flow) in
       let years := Js.ofZ days / 365.25 in
       dnpv + (- years * amount flow) / Math_pow (1 + rate) (years + 1))
    cashFlows 0.

Definition maxIterations : nat := 100.
Definition precision : float := 0.000001.

(** The [for] loop of the Newton-Raphson solver; [fuel] is the number of
    iterations the loop condition still allows.  It returns the local
    variables [rate], [iterations] and [converged] at loop exit. *)
Fixpoint newtonLoop (cashFlows : list CashFlow) (startDate : Date)
    (fuel : nat) (rate : float) (iterations : nat) : float * nat * bool :=
  match fuel with
  | O => (rate, iterations, false)
  | S fuel' =>
      let npv := calculateNPV rate cashFlows startDate in
      if abs npv <? precision then (rate, iterations, true)
      else
        let dnpv := calculateDerivativeNPV rate cashFlows startDate in
        if dnpv =? 0 then (rate, iterations, false)
        else
          let newRate := rate - npv / dnpv in
          let rate' := if newRate <=? -0.99 then -0.99 else newRate in
          newtonLoop cashFlows startDate fuel' rate' (S iterations)
  end.

Definition calculateWithNewtonRaphson (cashFlows : list CashFlow) (startDate : Date)
    (initialGuess : float) : MethodResult :=
  let '(rate, iterations, converged) :=
    newtonLoop cashFlows startDate maxIterations initialGuess 0 in
  let finalNPV := calculateNPV rate cashFlows startDate in
  {| rate := rate;
     ratePercent := toFixed (rate * 100) 6;
     iterations := iterations + 1;
     method := "Newton-Raphson";
     converged := converged;
     finalNPV := finalNPV |}.

(** The [for] loop of the bracketing solver over its local variables. *)
Fixpoint brentLoop (cashFlows : list CashFlow) (startDate : Date) (fuel : nat)
    (a b c d e fa fb fc : float) (iterations : nat) : float * nat * bool :=
  match fuel with
  | O => (b, iterations, false)
  | S fuel' =>
      let '(a, b, c, fa, fb, fc) :=
        if abs fc <? abs fb then (b, c, b, fb, fc, fb) else (a, b, c, fa, fb, fc) in
      let tol := 2 * precision * abs b + precision in
      let m := 0.5 * (c - b) in
      if (abs m <=? tol) || (abs fb <? precision) then (b, iterations, true)
      else
        let '(d, e) :=
          if (abs e <? tol) || (abs fa <=? abs fb) then (m, m)
          else
            let s := fb / fa in
            let '(p, q) :=
              if a =? c then (2 * m * s, 1 - s)
              else
                let q := fa / fc in
                let r := fb / fc in
                (s * (2 * m * q * (q - r) - (b - a) * (r - 1)),
                 (q - 1) * (r - 1) * (s - 1)) in
            let '(p, q) := if Js.gtb p 0 then (p, - q) else (- p, q) in
            let s2 := 2 * p in
            if (s2 <? 3 * m * q - abs (tol * q)) && (s2 <? abs (e * q))
            then (p / q, d)
            else (m, m) in
        let a := b in
        let fa := fb in
        let b :=
          if Js.gtb (abs d) tol then b + d
          else b + (if Js.geb m 0 then tol else - tol) in
        let fb := calculateNPV b cashFlows startDate in
        let '(c, fc, d, e) :=
          if Js.gtb (fb * fc) 0 then (a, fa, b - a, b - a) else (c, fc, d, e) in
        brentLoop cashFlows startDate fuel' a b c d e fa fb fc (S iterations)
  end.

Definition calculateWithBrent (cashFlows : list CashFlow) (startDate : Date)
    (lowerBound upperBound : float) : MethodResult :=
  let a := lowerBound in
  let b := upperBound in
  let c := a in
  let d := b - a in
  let e := d in
  let fa := calculateNPV a cashFlows startDate in
  let fb := calculateNPV b cashFlows startDate in
  let fc := fa in
  let '(a, b, fa, fb) :=
    if Js.geb (fa * fb) 0
    then (-0.5, 5.0, calculateNPV (-0.5) cashFlows startDate,
          calculateNPV 5.0 cashFlows startDate)
    else (a, b, fa, fb) in
  let '(b, iterations, converged) :=
    brentLoop cashFlows startDate maxIterations a b c d e fa fb fc 0 in
  let finalNPV := calculateNPV b cashFlows startDate in
  {| rate := b;
     ratePercent := toFixed (b * 100) 6;
     iterations := iterations + 1;
     method := "Brent's Method";
     converged := converged;
     finalNPV := finalNPV |}.

(** [[...cashFlows].sort((a, b) => a.date.getTime() - b.date.getTime())]:
    the sort of the runtime is stable; with valid dates the comparator is
    a total preorder, so the result is the stable sort by time value. *)
Fixpoint insertByTime (x : CashFlow) (l : list CashFlow) : list CashFlow :=
  match l with
  | [] => [x]
  | y :: l' =>
      if (getTime (date x) <=? getTime (date y))%Z then x :: y :: l'
      else y :: insertByTime x l'
  end.

Definition sortByTime (l : list CashFlow) : list CashFlow :=
  fold_right insertByTime [] l.

Definition sumAmounts (l : list CashFlow) : float :=
  fold_left (fun sum flow => sum + amount flow) l 0.

Definition calculateXIRR (cashFlows : list CashFlow) : option XIRRResult :=
  if (List.length cashFlows <? 2)%nat then None
  else
    let sortedFlows := sortByTime cashFlows in
    match sortedFlows with
    | [] => None
    | first :: _ =>
        let final := last sortedFlows first in
        let startDate := date first in
        let endDate := date final in
        let totalDays := dateDiffInDays startDate endDate in
        let netCashFlow := sumAmounts sortedFlows in
        let outflows := filter (fun f => amount f <? 0) sortedFlows in
        let inflows := filter (fun f => Js.gtb (amount f) 0) sortedFlows in
        let totalOutflows :=
          fold_left (fun sum flow => sum + abs (amount flow)) outflows 0 in
        let totalInflows := sumAmounts inflows in
        let firstCashFlow := amount first in
        let lastCashFlow := amount final in
        if (lastCashFlow <? 0) && (netCashFlow <? 0) then None
        else
          let newtonResult := calculateWithNewtonRaphson sortedFlows startDate 0.1 in
          let brentResult := calculateWithBrent sortedFlows startDate (-0.99) 10.0 in
          let bestResult :=
            if abs (finalNPV newtonResult) <? abs (finalNPV brentResult)
            then newtonResult else brentResult in
          let rate := rate bestResult in
          let difference := abs (Xirr.rate newtonResult - Xirr.rate brentResult) in
          let hasDifference := Js.gtb difference 0.00001 in
          let annualized := (365 <? totalDays)%Z in
          let years := Js.ofZ totalDays / 365.25 in
          let simpleReturn := Math_pow (1 + rate) years - 1 in
          Some {| xirr := rate;
                  xirrPercent := toFixed (rate * 100) 2;
                  simpleReturn := simpleReturn;
                  simpleReturnPercent := toFixed (simpleReturn * 100) 2;
                  annualized := annualized;
                  totalDays := totalDays;
                  netCashFlow := netCashFlow;
                  firstCashFlow := firstCashFlow;
                  lastCashFlow := lastCashFlow;
                  totalInflows := totalInflows;
                  totalOutflows := totalOutflows;
                  newtonRaphson := newtonResult;
                  brent := brentResult;
                  hasDifference := hasDifference;
                  difference := difference;
                  differencePercent := toFixed (difference * 100) 6 |}
    end.

End Core.

(** What [filterCashFlowsByPeriod] takes from the runtime:
    [yearsBefore d n] is the date [start] after
    [start = new Date(d); start.setFullYear(start.getFullYear() - n)], for a
    whole number [n] of years. *)
Class Calendar := {
  yearsBefore : Date -> Z -> Date
}.

Section Period.
Context {cal : Calendar}.

Definition filterCashFlowsByPeriod (cashFlows : list CashFlow) (endDate : Date)
    (years : Z) : list CashFlow :=
  let startDate := yearsBefore endDate years in
  let filtered :=
    filter
      (fun cf =>
         (getTime startDate <=? getTime (date cf))%Z
         && (getTime (date cf) <=? getTime endDate)%Z)
      cashFlows in
  if (List.length filtered =? 0)%nat then []
  else
    let sorted := sortByTime filtered in
    match sorted with
    | [] => []
    | first :: _ =>
        let firstDate := date first in
        let flowsBeforeStart :=
          filter (fun cf => (getTime (date cf) <? getTime startDate)%Z) cashFlows in
        if (0 <? List.length flowsBeforeStart)%nat then
          let openingBalance :=
            fold_left (fun sum cf => sum + amount cf) flowsBeforeStart 0 in
          if negb (openingBalance =? 0)
          then mkCashFlow firstDate openingBalance (Some "Opening Balance"%string) :: sorted
          else sorted
        else sorted
    end.

End Period.

(** What [parseCSV] takes from the runtime: [parseFloat(s)], and
    [new Date(s)] as its time value, [None] for an invalid date. *)
Class Text := {
  parseFloat : string -> float;
  Date_parse : string -> option Date
}.

Section Csv.
Context {tx : Text}.

(** The loop of [parseCSV] from line [i] on; [cashFlows] is the array
    built so far. *)
Fixpoint parseLines (lines : list string) (cashFlows : list CashFlow) : list CashFlow :=
  match lines with
  | [] => cashFlows
  | l :: rest =>
      let line := Js.trim l in
      if String.eqb line "" then parseLines rest cashFlows
      else
        let parts := Js.split "," line in
        if (List.length parts <? 2)%nat then parseLines rest cashFlows
        else
          let dateStr := Js.trim (nth 0 parts ""%string) in
          let amountStr := Js.trim (nth 1 parts ""%string) in
          let description :=
            match nth_error parts 2 with
            | Some part => Js.trim part
            | None => ""%string
            end in
          let amount := parseFloat amountStr in
          match Date_parse dateStr with
          | Some date =>
              if negb (Js.isNaN amount)
              then parseLines rest (cashFlows ++ [mkCashFlow date amount (Some description)])
              else parseLines rest cashFlows
          | None => parseLines rest cashFlows
          end
  end.

Definition parseCSV (csvText : string) : list CashFlow :=
  let lines := Js.split "010" (Js.trim csvText) in
  parseLines (skipn 1 lines) [].

End Csv.

End Xirr.

(** ** Interfaces the components share *)

Module Interfaces.

Record CashFlowData := mkCashFlowData {
  date : string;
  amount : string;
  description : string
}.

Record Period := mkPeriod {
  id : string;
  label : string;
  startDate : string;
  endDate : string;
  startValue : string;
  endValue : string
}.

Record PeriodValues := mkPeriodValues {
  periods : list Period
}.

End Interfaces.

(** ** DatasetManager: the saved datasets *)

Module DatasetManager.
Import Interfaces.

Record Dataset := mkDataset {
  id : string;
  name : string;
  description : string;
  created_at : string;
  updated_at : string;
  flows : list CashFlowData;
  period_values : option PeriodValues
}.

(** The item [irr_datasets] of the local storage: absent, or the JSON text
    of an array of datasets, modelled by that array ([JSON.parse] gives
    back the strings, arrays and [null] that [JSON.stringify] wrote). *)
Definition Storage := option (list Dataset).

(** [handleSave]: the storage after it.  [now] is [Date.now().toString()],
    [createdAt] and [updatedAt] are the two readings of
    [new Date().toISOString()]. *)
Definition handleSave (now createdAt updatedAt : string)
    (saveName saveDescription : string) (currentFlows : list CashFlowData)
    (periodValues : option PeriodValues) (isMultiPeriod : bool)
    (stored : Storage) : Storage :=
  if negb (Js.truthy (Js.trim saveName)) then stored
  else
    let existingDatasets := match stored with Some datasets => datasets | None => [] end in
    let newDataset :=
      {| id := now;
         name := Js.trim saveName;
         description := Js.trim saveDescription;
         created_at := createdAt;
         updated_at := updatedAt;
         flows :=
           filter (fun f => Js.truthy (date f) && Js.truthy (amount f)) currentFlows;
         period_values := if isMultiPeriod then periodValues else None |} in
    Some (newDataset :: existingDatasets).

(** [handleLoad]: what it hands to [onLoad], or the error it sets. *)
Definition handleLoad (datasetId : string) (stored : Storage)
    : (list CashFlowData * option PeriodValues) + string :=
  match stored with
  | None => inr "Failed to load dataset"%string
  | Some datasets =>
      match find (fun d => String.eqb (id d) datasetId) datasets with
      | None => inr "Failed to load dataset"%string
      | Some dataset => inl (flows dataset, period_values dataset)
      end
  end.

(** [handleDelete]: the storage after it; [confirmed] is the answer to
    the confirmation dialog. *)
Definition handleDelete (confirmed : bool) (datasetId : string) (stored : Storage)
    : Storage :=
  if negb confirmed then stored
  else
    match stored with
    | None => None
    | Some datasets =>
        Some (filter (fun d => negb (String.eqb (id d) datasetId)) datasets)
    end.

End DatasetManager.

(** ** App.tsx: the window builder *)

Module App.

Record FlowInput := mkFlowInput {
  id : string;
  date : string;
  amount : string;
  description : string
}.

(** String parsing of the runtime: [parseFloat(s)] and [new Date(s)].
    Date strings come from the date inputs of the form and are taken to
    denote valid dates. *)
Class Parsing := {
  parseFloat : string -> float;
  newDate : string -> Xirr.Date
}.

(** A string is truthy exactly when it is not empty. *)
Definition truthy (s : string) : bool := negb (String.eqb s "").

Definition findStartValueForDate (dateStr : string) : string := "".

Section Builder.
Context {ps : Parsing}.

(** [periodFlows] is the component state the closure reads. *)
Definition buildPeriodCashFlows (periodFlows : list FlowInput)
    (startDateStr endDateStr startValue endValue : string) : list Xirr.CashFlow :=
  if negb (truthy startDateStr) || negb (truthy endDateStr) || negb (truthy endValue)
  then []
  else
    let effectiveStartValue :=
      if truthy startValue then startValue else findStartValueForDate startDateStr in
    if negb (truthy effectiveStartValue) then []
    else
      let startDate := newDate startDateStr in
      let endDate := newDate endDateStr in
      let flows :=
        [ Xirr.mkCashFlow startDate (- abs (parseFloat effectiveStartValue))
            (Some "Period Start Value"%string) ] in
      let intermediateFlows :=
        filter
          (fun f =>
             (Xirr.getTime startDate <? Xirr.getTime (Xirr.date f))%Z
             && (Xirr.getTime (Xirr.date f) <? Xirr.getTime endDate)%Z)
          (map
             (fun f => Xirr.mkCashFlow (newDate (date f)) (parseFloat (amount f))
                         (Some (description f)))
             (filter (fun f => truthy (date f) && truthy (amount f)) periodFlows)) in
      let flows := flows ++ intermediateFlows in
      let flows :=
        flows ++ [ Xirr.mkCashFlow endDate (parseFloat endValue)
                     (Some "Period End Value"%string) ] in
      Xirr.sortByTime flows.

End Builder.

(** The [error] and [result] state after a handler. *)
Record Outcome := mkOutcome {
  error : string;
  result : option Xirr.XIRRResult
}.

Section Simple.
Context {rt : Xirr.Runtime} {ps : Parsing}.

(** [calculateIRR] over the [flows] state. *)
Definition calculateIRR (flows : list FlowInput) : Outcome :=
  let cashFlows :=
    map
      (fun f => Xirr.mkCashFlow (newDate (date f)) (parseFloat (amount f))
                  (Some (description f)))
      (filter (fun f => truthy (date f) && truthy (amount f)) flows) in
  if (List.length cashFlows <? 2)%nat
  then mkOutcome "Please enter at least 2 cash flows with valid dates and amounts." None
  else
    let hasOutflow := existsb (fun f => Xirr.amount f <? 0) cashFlows in
    let hasInflow := existsb (fun f => Js.gtb (Xirr.amount f) 0) cashFlows in
    if negb hasOutflow || negb hasInflow
    then mkOutcome
           "You need at least one negative cash flow (investment) and one positive cash flow (return)."
           None
    else
      match Xirr.calculateXIRR cashFlows with
      | None => mkOutcome "Unable to calculate XIRR. Please check your data." None
      | Some calculatedResult => mkOutcome "" (Some calculatedResult)
      end.

End Simple.

(** [removeFlow] of the simple mode: the [flows] state after it. *)
Definition removeFlow (id' : string) (flows : list FlowInput) : list FlowInput :=
  if (2 <? List.length flows)%nat
  then filter (fun f => negb (String.eqb (id f) id')) flows
  else flows.

(** A key of [FlowInput]. *)
Inductive FlowField := KeyId | KeyDate | KeyAmount | KeyDescription.

(** [{ ...f, [field]: value }]. *)
Definition withField (f : FlowInput) (field : FlowField) (value : string) : FlowInput :=
  match field with
  | KeyId => mkFlowInput value (date f) (amount f) (description f)
  | KeyDate => mkFlowInput (id f) value (amount f) (description f)
  | KeyAmount => mkFlowInput (id f) (date f) value (description f)
  | KeyDescription => mkFlowInput (id f) (date f) (amount f) value
  end.

Definition updateFlow (id' : string) (field : FlowField) (value : string)
    (flows : list FlowInput) : list FlowInput :=
  map (fun f => if String.eqb (id f) id' then withField f field value else f) flows.



(** The [currentFlows] the component hands to [DatasetManager]. *)
Definition currentFlows (flows : list FlowInput) : list Interfaces.CashFlowData :=
  map (fun f => Interfaces.mkCashFlowData (date f) (amount f) (description f)) flows.

End App.

(** ** MultiPeriodInput.tsx *)

Module MultiPeriodInput.
Import Interfaces.

Record PeriodResult := mkPeriodResult {
  period : string;
  startDate : string;
  endDate : string;
  years : float;
  cashFlows : list Xirr.CashFlow;
  result : option Xirr.XIRRResult;
  error : option string
}.

(** [!pr.error]: no error, or an empty one. *)
Definition noError (pr : PeriodResult) : bool :=
  match error pr with
  | None => true
  | Some e => negb (Js.truthy e)
  end.

(** [removePeriod]: the state after it. *)
Definition removePeriod (id' : string) (periodValues : PeriodValues) : PeriodValues :=
  if (1 <? List.length (periods periodValues))%nat
  then mkPeriodValues
         (filter (fun p => negb (String.eqb (id p) id')) (periods periodValues))
  else periodValues.

(** One entry of the [windows] array of [generateJSON]. *)
Module Json.
Record Window := mkWindow {
  window_id : string;
  converged : bool;
  error : option string;
  iterations : nat;
  xirr : float
}.
End Json.

Section Results.
Context {rt : Xirr.Runtime} {ps : App.Parsing} {tx : Xirr.Text}.

(** [new Date(s).getTime()] as a number. *)
Definition timeValue (s : string) : float :=
  match Xirr.Date_parse s with
  | Some d => Js.ofZ (Xirr.getTime d)
  | None => nan
  end.

(** The callback of [periodValues.periods.map] that builds
    [periodResults]; [periodFlows] is the pool the builder reads. *)
Definition periodResult (periodFlows : list App.FlowInput) (p : Period) : PeriodResult :=
  let cashFlows :=
    App.buildPeriodCashFlows periodFlows (Interfaces.startDate p) (Interfaces.endDate p)
      (startValue p) (endValue p) in
  let daysDiff :=
    (timeValue (Interfaces.endDate p) - timeValue (Interfaces.startDate p))
    / (1000 * 60 * 60 * 24) in
  let years := daysDiff / 365.25 in
  if (List.length cashFlows <? 2)%nat
  then mkPeriodResult (label p) (Interfaces.startDate p) (Interfaces.endDate p) years
         cashFlows None (Some "Please enter start date, end date, and values"%string)
  else
    match Xirr.calculateXIRR cashFlows with
    | None =>
        mkPeriodResult (label p) (Interfaces.startDate p) (Interfaces.endDate p) years
          cashFlows None (Some "Unable to calculate XIRR"%string)
    | Some result =>
        mkPeriodResult (label p) (Interfaces.startDate p) (Interfaces.endDate p) years
          cashFlows (Some result) None
    end.

Definition periodResults (periodFlows : list App.FlowInput) (periodValues : PeriodValues)
    : list PeriodResult :=
  map (periodResult periodFlows) (periods periodValues).

(** [selectedMethod] of [generateJSON]. *)
Definition selectedMethod (result : Xirr.XIRRResult) : Xirr.MethodResult :=
  if Xirr.hasDifference result
     && (abs (Xirr.finalNPV (Xirr.brent result))
         <? abs (Xirr.finalNPV (Xirr.newtonRaphson result)))
  then Xirr.brent result
  else Xirr.newtonRaphson result.

(** The callback of [periodResults.map] in [generateJSON]. *)
Definition window (pr : PeriodResult) (index : nat) : Json.Window :=
  match result pr with
  | Some r =>
      if negb (noError pr)
      then Json.mkWindow (Js.indexToString (index + 1)) false (error pr) 0 (-999.99)
      else
        let selected := selectedMethod r in
        Json.mkWindow (Js.indexToString (index + 1)) (Xirr.converged selected) None
          (Xirr.iterations selected)
          (Xirr.parseFloat (Xirr.toFixed (Xirr.rate selected) 15))
  | None =>
      Json.mkWindow (Js.indexToString (index + 1)) false
        (Some (match error pr with
               | Some e => if Js.truthy e then e else "Unable to calculate XIRR"%string
               | None => "Unable to calculate XIRR"%string
               end))
        0 (-999.99)
  end.

(** [periodResults.map((pr, index) => ...)] of [generateJSON], from
    [index] on, and the [windows] array. *)
Fixpoint windowsFrom (index : nat) (periodResults : list PeriodResult)
    : list Json.Window :=
  match periodResults with
  | [] => []
  | pr :: rest => window pr index :: windowsFrom (S index) rest
  end.

Definition windows (periodResults : list PeriodResult) : list Json.Window :=
  windowsFrom 0 periodResults.

(** The summary statistics of the results panel: the number of valid
    results, the number of those on which the solvers disagree, and the
    labels of these. *)
Definition summary (periodResults : list PeriodResult) : nat * nat * list string :=
  let validResults :=
    filter
      (fun pr => match result pr with Some _ => noError pr | None => false end)
      periodResults in
  let totalCalculations := List.length validResults in
  let mismatchedPeriods :=
    filter
      (fun pr => match result pr with Some r => Xirr.hasDifference r | None => false end)
      validResults in
  let methodMismatches := List.length mismatchedPeriods in
  let mismatchPeriodNames := map period mismatchedPeriods in
  (totalCalculations, methodMismatches, mismatchPeriodNames).

End Results.

End MultiPeriodInput.

(** ** MultiPeriodAnalysis.tsx *)

Module MultiPeriodAnalysis.

Record PeriodResult := mkPeriodResult {
  period : string;
  years : Z;
  result : option Xirr.XIRRResult;
  error : option string
}.

Section Results.
Context {rt : Xirr.Runtime} {cal : Xirr.Calendar}.

Definition periods : list (string * Z) :=
  [("1 Year"%string, 1%Z); ("5 Years"%string, 5%Z); ("10 Years"%string, 10%Z)].

Definition periodResults (cashFlows : list Xirr.CashFlow) : list PeriodResult :=
  if (List.length cashFlows <? 2)%nat then []
  else
    let sortedFlows := Xirr.sortByTime cashFlows in
    match sortedFlows with
    | [] => []
    | first :: _ =>
        let endDate := Xirr.date (last sortedFlows first) in
        map
          (fun '(period, years) =>
             let filteredFlows := Xirr.filterCashFlowsByPeriod cashFlows endDate years in
             if (List.length filteredFlows <? 2)%nat
             then mkPeriodResult period years None
                    (Some "Insufficient data for this period"%string)
             else
               match Xirr.calculateXIRR filteredFlows with
               | None =>
                   mkPeriodResult period years None
                     (Some "Unable to calculate (invalid cash flow pattern)"%string)
               | Some xirrResult => mkPeriodResult period years (Some xirrResult) None
               end)
          periods
    end.

Definition methodStats (periodResults : list PeriodResult) : nat * nat * list string :=
  let validResults :=
    filter (fun pr => match result pr with Some _ => true | None => false end)
      periodResults in
  let totalCalculations := List.length validResults in
  let mismatchedPeriods :=
    filter
      (fun pr => match result pr with Some r => Xirr.hasDifference r | None => false end)
      validResults in
  let methodMismatches := List.length mismatchedPeriods in
  let mismatchPeriodNames := map period mismatchedPeriods in
  (totalCalculations, methodMismatches, mismatchPeriodNames).

End Results.

End MultiPeriodAnalysis.

(** ** A reference runtime

    Concrete instances of the runtime parameters, to run the model on
    concrete inputs: UTC as the local time zone, decimal parsing and
    printing, and a [Math.pow] that multiplies at integer exponents.  The
    general theorems hold for every runtime; the counterexamples span four
    years of 365.25 days, so that every exponent in them is one of the
    integers 0, 1, 4 and 5. *)

Module Ref.

(** The integer a number denotes, when it denotes one. *)
Definition toInteger (x : float) : option Z :=
  match Prim2SF x with
  | S754_zero _ => Some 0%Z
  | S754_finite s m e =>
      let v :=
        if (0 <=? e)%Z then Some (Z.shiftl (Zpos m) e)
        else if (Z.land (Zpos m) (Z.ones (- e)) =? 0)%Z then Some (Z.shiftr (Zpos m) (- e))
        else None in
      option_map (fun z => if s then (- z)%Z else z) v
  | _ => None
  end.

Fixpoint powPos (x : float) (p : positive) : float :=
  match p with
  | xH => x
  | xO p' => let h := powPos x p' in h * h
  | xI p' => let h := powPos x p' in x * (h * h)
  end.

Definition ln2 : float := 0x1.62e42fefa39efp-1.

Fixpoint atanhSeries (n : nat) (t2 k : float) : float :=
  match n with
  | O => 1 / k
  | S n' => 1 / k + t2 * atanhSeries n' t2 (k + 2)
  end.

Definition ln (x : float) : float :=
  let (m, e) := Z.frexp x in
  let '(m, e) := if m <? 0x1.6a09e667f3bcdp-1 then (2 * m, (e - 1)%Z) else (m, e) in
  let t := (m - 1) / (m + 1) in
  Js.ofZ e * ln2 + 2 * t * atanhSeries 14 (t * t) 1.

Fixpoint expSeries (n : nat) (r k : float) : float :=
  match n with
  | O => 1
  | S n' => 1 + r / k * expSeries n' r (k + 1)
  end.

Definition roundZ (x : float) : Z :=
  match toInteger (x + 0x1.8p52 - 0x1.8p52) with Some z => z | None => 0%Z end.

Definition exp (z : float) : float :=
  if 710 <? z then infinity
  else if z <? -746 then 0
  else
    let k := roundZ (z / ln2) in
    let r := z - Js.ofZ k * ln2 in
    Z.ldexp (expSeries 20 r 1) k.

(** [Math.pow]: repeated multiplication at integer exponents, [exp (y ln x)]
    elsewhere, with the special cases of ECMAScript. *)
Definition pow (x y : float) : float :=
  if y =? 0 then 1
  else if Js.isNaN x || Js.isNaN y then nan
  else
    match toInteger y with
    | Some (Zpos p) => powPos x p
    | Some (Zneg p) => 1 / powPos x p
    | _ =>
        if x <? 0 then nan
        else if x =? 0 then (if y <? 0 then infinity else 0)
        else if x =? infinity then (if y <? 0 then 0 else infinity)
        else exp (y * ln x)
    end.

Fixpoint digitsOf (fuel : nat) (n : Z) (acc : string) : string :=
  match fuel with
  | O => acc
  | S fuel' =>
      let acc' := String (ascii_of_nat (48 + Z.to_nat (n mod 10))) acc in
      if (n <? 10)%Z then acc' else digitsOf fuel' (n / 10) acc'
  end.

Fixpoint padLeft (fuel width : nat) (s : string) : string :=
  match fuel with
  | O => s
  | S fuel' =>
      if (String.length s <? width)%nat then padLeft fuel' width (String "0" s) else s
  end.

(** [x.toFixed(digits)] for numbers below 1e21: the decimal with [digits]
    fraction digits nearest to [x], ties to the larger one. *)
Definition toFixed (x : float) (digits : nat) : string :=
  let render (neg : bool) (n : Z) :=
    let ds := padLeft (S digits) (S digits) (digitsOf 400 n "") in
    let k := (String.length ds - digits)%nat in
    let body :=
      match digits with
      | O => ds
      | _ => (substring 0 k ds ++ "." ++ substring k digits ds)%string
      end in
    if neg then ("-" ++ body)%string else body in
  match Prim2SF x with
  | S754_nan => "NaN"%string
  | S754_infinity s => if s then "-Infinity"%string else "Infinity"%string
  | S754_zero _ => render false 0%Z
  | S754_finite s m e =>
      let num := (Zpos m * 10 ^ Z.of_nat digits * 2 ^ Z.max e 0)%Z in
      let den := (2 ^ Z.max (- e) 0)%Z in
      render s ((2 * num + den) / (2 * den))%Z
  end.

Definition xirrRuntime : Xirr.Runtime := {|
  Xirr.Math_pow := pow;
  Xirr.toFixed := toFixed;
  Xirr.LocalTZA := fun _ => 0%Z
|}.

Definition digitOf (c : ascii) : option Z :=
  let n := nat_of_ascii c in
  if ((48 <=? n) && (n <=? 57))%nat then Some (Z.of_nat (n - 48)) else None.

(** Reads a run of decimal digits: its value, its length and the rest. *)
Fixpoint readDigits (s : string) (acc : Z) (len : nat) : Z * nat * string :=
  match s with
  | EmptyString => (acc, len, s)
  | String c s' =>
      match digitOf c with
      | Some dgt => readDigits s' (10 * acc + dgt)%Z (S len)
      | None => (acc, len, s)
      end
  end.

(** [parseFloat] on plain decimals: sign, digits, fraction. *)
Definition parseFloat (s : string) : float :=
  let '(neg, body) :=
    match s with
    | String "-" s' => (true, s')
    | String "+" s' => (false, s')
    | _ => (false, s)
    end in
  let '(ip, ilen, rest) := readDigits body 0%Z 0 in
  let '(fp, flen) :=
    match rest with
    | String "." frac => let '(v, len, _) := readDigits frac ip 0 in (v, len)
    | _ => (ip, 0%nat)
    end in
  if (ilen + flen =? 0)%nat then nan
  else
    let v := Js.ofZ fp / Js.ofZ (10 ^ Z.of_nat flen) in
    if neg then - v else v.

(** [new Date("YYYY-MM-DD")]: midnight UTC of that day. *)
Definition newDate (s : string) : Xirr.Date :=
  let '(y, _, r1) := readDigits s 0%Z 0 in
  let '(m, _, r2) := readDigits (substring 1 (String.length r1) r1) 0%Z 0 in
  let '(d, _, _) := readDigits (substring 1 (String.length r2) r2) 0%Z 0 in
  Xirr.mkDate (Js.daysFromCivil y m d * Xirr.msPerDay).

Definition parsing : App.Parsing := {|
  App.parseFloat := parseFloat;
  App.newDate := newDate
|}.

(** [setFullYear(getFullYear() - years)] in UTC: same month, day and time
    of day, a 29th of February moving to the 1st of March. *)
Definition yearsBefore (d : Xirr.Date) (years : Z) : Xirr.Date :=
  let t := Xirr.getTime d in
  let '(y, m, dd) := Js.civilFromDays (t / Xirr.msPerDay) in
  Xirr.mkDate (Js.daysFromCivil (y - years) m dd * Xirr.msPerDay + t mod Xirr.msPerDay).

Definition calendar : Xirr.Calendar := {| Xirr.yearsBefore := yearsBefore |}.

(** [new Date(s)] on strings of the form YYYY-MM-DD, invalid elsewhere. *)
Definition dateParse (s : string) : option Xirr.Date :=
  let '(y, ylen, r1) := readDigits s 0%Z 0 in
  let '(m, mlen, r2) := readDigits (substring 1 (String.length r1) r1) 0%Z 0 in
  let '(d, dlen, r3) := readDigits (substring 1 (String.length r2) r2) 0%Z 0 in
  if ((ylen =? 4) && (mlen =? 2) && (dlen =? 2))%nat
     && String.eqb (substring 0 1 r1) "-" && String.eqb (substring 0 1 r2) "-"
     && String.eqb r3 ""
     && ((1 <=? m) && (m <=? 12) && (1 <=? d) && (d <=? 31))%Z
  then Some (newDate s)
  else None.

Definition text : Xirr.Text := {|
  Xirr.parseFloat := parseFloat;
  Xirr.Date_parse := dateParse
|}.

End Ref.

(** ** Vocabulary of the statements *)

Module Spec.
Import Xirr.

Definition timeOf (f : CashFlow) : Z := getTime (date f).

(** Chronological order of flows. *)
Definition byTime (f g : CashFlow) : Prop := (timeOf f <= timeOf g)%Z.

(** Two numbers are both positive or both negative. *)
Definition sameSign (x y : float) : Prop :=
  ((0 <? x) = true /\ (0 <? y) = true) \/ ((x <? 0) = true /\ (y <? 0) = true).

(** [x] equals [y] to within the relative error [tol]. *)
Definition withinRelative (x y tol : float) : bool :=
  abs (x - y) <=? tol * abs x.

(** A rate at which the power term is defined, or not a number. *)
Definition rateSafe (r : float) : Prop :=
  Js.isNaN r = true \/ (-0.99 <=? r) = true.

(** One call of the NPV kernel by a solver. *)
Inductive Evaluation :=
| EvalNPV (rate : float)
| EvalDerivative (rate : float).

Definition evaluatedAt (ev : Evaluation) : float :=
  match ev with EvalNPV r | EvalDerivative r => r end.

Definition isDerivative (ev : Evaluation) : bool :=
  match ev with EvalDerivative _ => true | EvalNPV _ => false end.

Section WithRuntime.
Context {rt : Runtime}.

(** The Newton-Raphson loop again, logging each call of [calculateNPV]
    and [calculateDerivativeNPV] in the order it is made. *)
Fixpoint newtonLoopLog (cashFlows : list CashFlow) (startDate : Date)
    (fuel : nat) (rate : float) (iterations : nat)
    : (float * nat * bool) * list Evaluation :=
  match fuel with
  | O => ((rate, iterations, false), [])
  | S fuel' =>
      let npv := calculateNPV rate cashFlows startDate in
      if abs npv <? precision then ((rate, iterations, true), [EvalNPV rate])
      else
        let dnpv := calculateDerivativeNPV rate cashFlows startDate in
        if dnpv =? 0
        then ((rate, iterations, false), [EvalNPV rate; EvalDerivative rate])
        else
          let newRate := rate - npv / dnpv in
          let rate' := if newRate <=? -0.99 then -0.99 else newRate in
          let '(out, log) :=
            newtonLoopLog cashFlows startDate fuel' rate' (S iterations) in
          (out, EvalNPV rate :: EvalDerivative rate :: log)
  end.

(** All kernel calls of [calculateWithNewtonRaphson]: those of the loop,
    then the one that computes [finalNPV]. *)
Definition newtonEvaluations (cashFlows : list CashFlow) (startDate : Date)
    (initialGuess : float) : list Evaluation :=
  let '((rate, _, _), log) :=
    newtonLoopLog cashFlows startDate maxIterations initialGuess 0 in
  log ++ [EvalNPV rate].

(** The bracketing solver from given values of its local variables at
    loop entry. *)
Definition brentFrom (cashFlows : list CashFlow) (startDate : Date)
    (a b c d e fa fb fc : float) : MethodResult :=
  let '(b, iterations, converged) :=
    brentLoop cashFlows startDate maxIterations a b c d e fa fb fc 0 in
  {| rate := b;
     ratePercent := toFixed (b * 100) 6;
     iterations := iterations + 1;
     method := "Brent's Method";
     converged := converged;
     finalNPV := calculateNPV b cashFlows startDate |}.

(** The bracketing solver run on a bracket, as the specification words
    the retry: the endpoints, the third point and the step sizes are all
    those of the bracket. *)
Definition brentOnBracket (cashFlows : list CashFlow) (startDate : Date)
    (lowerBound upperBound : float) : MethodResult :=
  brentFrom cashFlows startDate lowerBound upperBound lowerBound
    (upperBound - lowerBound) (upperBound - lowerBound)
    (calculateNPV lowerBound cashFlows startDate)
    (calculateNPV upperBound cashFlows startDate)
    (calculateNPV lowerBound cashFlows startDate).

Definition chronologicallyFirst (cashFlows : list CashFlow) : option CashFlow :=
  hd_error (sortByTime cashFlows).

Definition chronologicallyLast (cashFlows : list CashFlow) : option CashFlow :=
  match sortByTime cashFlows with
  | [] => None
  | f :: l => Some (last (f :: l) f)
  end.

(** Net sum of all amounts, added in chronological order. *)
Definition netSum (cashFlows : list CashFlow) : float :=
  sumAmounts (sortByTime cashFlows).

(** The degenerate-input condition: last flow negative and net sum
    negative. *)
Definition degenerate (cashFlows : list CashFlow) : bool :=
  match chronologicallyLast cashFlows with
  | Some f => (amount f <? 0) && (netSum cashFlows <? 0)
  | None => false
  end.

End WithRuntime.

Section WithParsing.
Context {ps : App.Parsing}.

(** A pool entry as a cash flow. *)
Definition toCashFlow (f : App.FlowInput) : CashFlow :=
  mkCashFlow (App.newDate (App.date f)) (App.parseFloat (App.amount f))
    (Some (App.description f)).

(** A pool entry that has both a date and an amount. *)
Definition complete (f : App.FlowInput) : bool :=
  App.truthy (App.date f) && App.truthy (App.amount f).

(** The supplied flows dated strictly between the two boundaries. *)
Definition intermediates (pool : list App.FlowInput) (startDate endDate : Date)
    : list CashFlow :=
  filter
    (fun f => (getTime startDate <? timeOf f)%Z && (timeOf f <? getTime endDate)%Z)
    (map toCashFlow (filter complete pool)).

(** The synthetic flows of a window: -|startValue| at the start date and
    the end value, sign kept, at the end date. *)
Definition windowStart (startDateStr startValue : string) : CashFlow :=
  mkCashFlow (App.newDate startDateStr) (- abs (App.parseFloat startValue))
    (Some "Period Start Value"%string).

Definition windowEnd (endDateStr endValue : string) : CashFlow :=
  mkCashFlow (App.newDate endDateStr) (App.parseFloat endValue)
    (Some "Period End Value"%string).

End WithParsing.

(** Concrete inputs. *)
Definition onDay (s : string) (a : float) : CashFlow :=
  mkCashFlow (Ref.newDate s) a None.

Definition totalLoss : list CashFlow :=
  [onDay "2020-01-01" (-1000000); onDay "2024-01-01" 0.001].

Definition nearTotalLoss : list CashFlow :=
  [onDay "2020-01-01" (-100000); onDay "2024-01-01" 0.0001].

Definition oneYearLoss : list CashFlow :=
  [onDay "2024-01-01" (-100000); onDay "2024-12-31" 1].

Definition hugeInflows : list CashFlow :=
  [onDay "2020-01-01" 1.5e308; onDay "2024-01-01" 1.5e308].

Definition doubling : list CashFlow :=
  [onDay "2020-01-01" (-100); onDay "2024-01-01" 200].

(** Scenario 1 of the specification: a span of exactly 365 days. *)
Definition scenario1 : list CashFlow :=
  [onDay "2024-01-01" (-100000); onDay "2024-12-31" 115000].

(** The results of the reconciler on two of these inputs. *)
Definition doublingResult : XIRRResult :=
  ltac:(let o := eval vm_compute in (calculateXIRR (rt := Ref.xirrRuntime) doubling) in
        match o with Some ?r => exact r end).


Definition sameDayTail : list CashFlow :=
  [onDay "2020-01-01" (-100); onDay "2024-01-01" 50; onDay "2024-01-01" (-10)].

Definition sameDayTailSwapped : list CashFlow :=
  [onDay "2020-01-01" (-100); onDay "2024-01-01" (-10); onDay "2024-01-01" 50].

Definition samplePool : list App.FlowInput :=
  [ App.mkFlowInput "1" "2024-06-15" "5000" "Dividend";
    App.mkFlowInput "2" "2024-01-01" "7" "On start";
    App.mkFlowInput "3" "2024-12-31" "9" "On end";
    App.mkFlowInput "4" "2024-03-01" "-10" "Fee" ].

(** *** Vocabulary for the rest of the code *)

(** A flow dated at the time value [t]. *)
Definition datedAt (t : Z) (f : CashFlow) : bool := (timeOf f =? t)%Z.

(** A number that is zero or positive (so not NaN). *)
Definition notNegative (x : float) : Prop := (0 <=? x) = true.

(** The number of the local calendar day of a date. *)
Definition localDay {rt : Runtime} (d : Date) : Z :=
  (getTime d + LocalTZA (getTime d)) / msPerDay.

(** A date whose local year is one of the years 0 to 99. *)
Definition twoDigitYear {rt : Runtime} (d : Date) : bool :=
  ((0 <=? getFullYear d) && (getFullYear d <=? 99))%Z.

(** A flow dated within a period, boundaries included, and a flow dated
    before it. *)
Definition inPeriod (startDate endDate : Date) (f : CashFlow) : bool :=
  (getTime startDate <=? timeOf f)%Z && (timeOf f <=? getTime endDate)%Z.

Definition beforePeriod (startDate : Date) (f : CashFlow) : bool :=
  (timeOf f <? getTime startDate)%Z.

(** The flows of a period in chronological order. *)
Definition periodFlows (cashFlows : list CashFlow) (startDate endDate : Date)
    : list CashFlow :=
  sortByTime (filter (inPeriod startDate endDate) cashFlows).

(** The sum of the flows before a period, added in input order. *)
Definition balanceBefore (cashFlows : list CashFlow) (startDate : Date) : float :=
  sumAmounts (filter (beforePeriod startDate) cashFlows).

(** The lines of a CSV text and the trimmed field [i] of a line. *)
Definition csvLines (csvText : string) : list string :=
  Js.split "010" (Js.trim csvText).

Definition csvField (line : string) (i : nat) : option string :=
  option_map Js.trim (nth_error (Js.split "," (Js.trim line)) i).

(** The flow a line of a CSV text denotes, if any: its first field a
    valid date, its second a number, its third, or the empty string, the
    description. *)
Definition flowOfLine {tx : Text} (line : string) : option CashFlow :=
  match csvField line 0, csvField line 1 with
  | Some dateStr, Some amountStr =>
      match Date_parse dateStr with
      | Some d =>
          if Js.isNaN (parseFloat amountStr) then None
          else Some (mkCashFlow d (parseFloat amountStr)
                       (Some (match csvField line 2 with
                              | Some s => s
                              | None => ""%string
                              end)))
      | None => None
      end
  | _, _ => None
  end.

Definition flowsOfLine {tx : Text} (line : string) : list CashFlow :=
  match flowOfLine line with Some f => [f] | None => [] end.

(** What [calculateXIRR] reads of a flow. *)
Definition dateAndAmount (f : CashFlow) : Date * float := (date f, amount f).

(** A window of the exported JSON that reports no error. *)
Definition withoutError (w : MultiPeriodInput.Json.Window) : bool :=
  match MultiPeriodInput.Json.error w with None => true | Some _ => false end.

(** The flows [calculateIRR] reads off the form: the entries with a date
    and an amount. *)
Definition enteredFlows {ps : App.Parsing} (flows : list App.FlowInput) : list CashFlow :=
  map toCashFlow (filter complete flows).

(** A period with both dates and both values filled in. *)
Definition filledIn (p : Interfaces.Period) : bool :=
  App.truthy (Interfaces.startDate p) && App.truthy (Interfaces.endDate p)
  && App.truthy (Interfaces.startValue p) && App.truthy (Interfaces.endValue p).



(** More concrete inputs. *)
Definition ledger : list CashFlow :=
  [onDay "2020-01-01" (-100); onDay "2023-06-01" 5; onDay "2025-02-01" 9;
   onDay "2024-01-01" 200; onDay "2023-03-01" (-7)].

Definition sampleCsv : string :=
  "Date,Amount,Description
2024-01-01,-100000,Initial Investment
2024-06-15, 5000 , Dividend Received

not a data line
2024-09-30,abc,Not a number
2024-12-31,115000
".

Definition sampleForm : list App.FlowInput :=
  [ App.mkFlowInput "1" "2020-01-01" "-100" "Initial Investment";
    App.mkFlowInput "2" "" "" "";
    App.mkFlowInput "3" "2024-01-01" "200" "Final Value" ].

Definition samplePeriod : Interfaces.Period :=
  Interfaces.mkPeriod "1" "1 Year" "2024-01-01" "2024-12-31" "100000" "115000".

End Spec.

(** ** Facts on binary64 comparison and sign *)

Module FloatFacts.
Import Spec.

Ltac cmp_cases :=
  repeat match goal with
    | H : context [(?x ?= ?y)%Z] |- _ => destruct (Z.compare_spec x y)
    | |- context [(?x ?= ?y)%Z] => destruct (Z.compare_spec x y)
    | H : context [PosDef.Pos.compare_cont Eq ?x ?y] |- _ =>
        change (PosDef.Pos.compare_cont Eq x y) with (Pos.compare x y) in *;
        destruct (Pos.compare_spec x y)
    | |- context [PosDef.Pos.compare_cont Eq ?x ?y] =>
        change (PosDef.Pos.compare_cont Eq x y) with (Pos.compare x y) in *;
        destruct (Pos.compare_spec x y)
    end.

Ltac by_spec_cases a b c :=
  unfold SFleb, SFltb;
  destruct a as [? | ? | | ? ? ?], b as [? | ? | | ? ? ?], c as [? | ? | | ? ? ?];
  simpl; try discriminate; try reflexivity;
  repeat match goal with s : bool |- _ => destruct s end;
  simpl; try discriminate; try reflexivity; try congruence;
  intros; cmp_cases; simpl in *; subst; try discriminate; try reflexivity; try lia.

Lemma SFcompare_antisym x y c :
  SFcompare x y = Some c -> SFcompare y x = Some (CompOpp c).
Proof.
  destruct x as [sx | sx | | sx mx ex], y as [sy | sy | | sy my ey]; simpl;
    try discriminate;
    try (destruct sx; intros [= <-]; reflexivity);
    try (destruct sy; intros [= <-]; reflexivity);
    try (destruct sx, sy; intros [= <-]; reflexivity).
  pose proof (Pos.compare_antisym mx my) as HP. unfold Pos.compare in HP.
  rewrite (Z.compare_antisym ex ey), HP.
  destruct sx, sy; intros [= <-]; try reflexivity;
    destruct (ex ?= ey)%Z; simpl; try reflexivity;
    destruct (Pos.compare_cont Eq mx my); reflexivity.
Qed.

Lemma SF_le_lt_trans a b c :
  SFleb a b = true -> SFltb b c = true -> SFltb a c = true.
Proof. by_spec_cases a b c. Qed.

Lemma SF_lt_le_trans a b c :
  SFltb a b = true -> SFleb b c = true -> SFltb a c = true.
Proof. by_spec_cases a b c. Qed.

Lemma ltb_asym x y : (x <? y) = true -> (y <? x) = false.
Proof.
  rewrite !FloatAxioms.ltb_spec. unfold SFltb.
  destruct (SFcompare (Prim2SF x) (Prim2SF y)) as [c|] eqn:E; try discriminate.
  rewrite (SFcompare_antisym _ _ _ E). destruct c; simpl; congruence.
Qed.

Lemma ltb_leb x y : (x <? y) = true -> (x <=? y) = true.
Proof.
  rewrite FloatAxioms.ltb_spec, FloatAxioms.leb_spec. unfold SFltb, SFleb.
  destruct (SFcompare _ _) as [[]|]; congruence.
Qed.

Lemma ltb_not_leb x y : (x <? y) = true -> (y <=? x) = false.
Proof.
  rewrite FloatAxioms.ltb_spec, FloatAxioms.leb_spec. unfold SFltb, SFleb.
  destruct (SFcompare (Prim2SF x) (Prim2SF y)) as [c|] eqn:E; try discriminate.
  rewrite (SFcompare_antisym _ _ _ E). destruct c; simpl; congruence.
Qed.

Lemma le_lt_trans x y z : (x <=? y) = true -> (y <? z) = true -> (x <? z) = true.
Proof. rewrite !FloatAxioms.ltb_spec, FloatAxioms.leb_spec. apply SF_le_lt_trans. Qed.

Lemma lt_le_trans x y z : (x <? y) = true -> (y <=? z) = true -> (x <? z) = true.
Proof. rewrite !FloatAxioms.ltb_spec, FloatAxioms.leb_spec. apply SF_lt_le_trans. Qed.

Lemma isNaN_spec x : Js.isNaN x = true <-> Prim2SF x = S754_nan.
Proof.
  unfold Js.isNaN. rewrite FloatAxioms.eqb_spec. unfold SFeqb.
  destruct (Prim2SF x) as [s | s | | s m e]; simpl.
  - split; discriminate.
  - destruct s; split; discriminate.
  - split; reflexivity.
  - rewrite Z.compare_refl, Pos.compare_cont_refl. destruct s; split; discriminate.
Qed.

Lemma isNaN_abs x : Js.isNaN (abs x) = Js.isNaN x.
Proof.
  apply eq_true_iff_eq. rewrite !isNaN_spec, abs_spec.
  destruct (Prim2SF x); simpl; split; congruence.
Qed.

Lemma ltb_not_NaN_l x y : (x <? y) = true -> Js.isNaN x = false.
Proof.
  intros H. destruct (Js.isNaN x) eqn:E; [|reflexivity].
  apply isNaN_spec in E. rewrite FloatAxioms.ltb_spec, E in H. discriminate.
Qed.

(** Comparison is total on numbers. *)
Lemma leb_total x y :
  Js.isNaN x = false -> Js.isNaN y = false -> (x <? y) = false -> (y <=? x) = true.
Proof.
  intros Hx Hy. rewrite FloatAxioms.ltb_spec, FloatAxioms.leb_spec. unfold SFltb, SFleb.
  assert (Prim2SF x <> S754_nan) as Nx by (intros E; apply isNaN_spec in E; congruence).
  assert (Prim2SF y <> S754_nan) as Ny by (intros E; apply isNaN_spec in E; congruence).
  destruct (SFcompare (Prim2SF x) (Prim2SF y)) as [c|] eqn:E.
  - rewrite (SFcompare_antisym _ _ _ E). destruct c; simpl; congruence.
  - destruct (Prim2SF x) as [sx | sx | | sx mx ex], (Prim2SF y) as [sy | sy | | sy my ey];
      simpl in E; congruence.
Qed.

(** *** Sign of a product *)

Lemma iter_pos_inv {A} (P : A -> Prop) (f : A -> A) :
  (forall x, P x -> P (f x)) -> forall p x, P x -> P (iter_pos f p x).
Proof.
  intros Hf p. induction p as [p IH | p IH |]; simpl; intros x Hx; auto.
Qed.

Lemma shr_1_nonneg mrs : (0 <= shr_m mrs)%Z -> (0 <= shr_m (shr_1 mrs))%Z.
Proof.
  destruct mrs as [m r s]; simpl.
  destruct m as [| [p | p |] | [p | p |]]; simpl; lia.
Qed.

Lemma shr_nonneg mrs e n : (0 <= shr_m mrs)%Z -> (0 <= shr_m (fst (shr mrs e n)))%Z.
Proof.
  intros H. destruct n; simpl; auto.
  apply iter_pos_inv; auto using shr_1_nonneg.
Qed.

Lemma shr_fexp_nonneg m e l :
  (0 <= m)%Z -> (0 <= shr_m (fst (shr_fexp prec emax m e l)))%Z.
Proof.
  intros H. unfold shr_fexp. apply shr_nonneg.
  destruct l as [| []]; simpl; assumption.
Qed.

Lemma round_nearest_even_nonneg m l : (0 <= m)%Z -> (0 <= round_nearest_even m l)%Z.
Proof.
  intros H. destruct l as [| []]; simpl; try assumption.
  - destruct (Z.even m); lia.
  - lia.
Qed.

(** Rounding a nonnegative mantissa keeps the sign it is given. *)
Lemma binary_round_aux_sign s m e l :
  (0 <= m)%Z ->
  let r := binary_round_aux prec emax s m e l in
  r = S754_zero s \/ r = S754_infinity s \/ exists m' e', r = S754_finite s m' e'.
Proof.
  intros H. unfold binary_round_aux.
  pose proof (shr_fexp_nonneg m e l H) as H1.
  destruct (shr_fexp prec emax m e l) as [mrs' e']; simpl in H1.
  pose proof (shr_fexp_nonneg _ e' loc_Exact
                (round_nearest_even_nonneg _ (loc_of_shr_record mrs') H1)) as H2.
  destruct (shr_fexp prec emax (round_nearest_even _ _) e' loc_Exact) as [mrs'' e''].
  simpl in H2. destruct (shr_m mrs'') as [| p | p]; [auto | | lia].
  destruct (e'' <=? emax - prec)%Z; eauto.
Qed.

(** The product of two numbers of the same sign is not negative, also
    when it underflows to zero or overflows to infinity. *)
Lemma sameSign_mul_nonneg x y : sameSign x y -> (0 <=? x * y) = true.
Proof.
  unfold sameSign.
  rewrite !FloatAxioms.ltb_spec, FloatAxioms.leb_spec, FloatAxioms.mul_spec.
  change (Prim2SF 0) with (S754_zero false).
  unfold SFltb, SFleb, SF64mul.
  destruct (Prim2SF x) as [sx | sx | | sx mx ex], (Prim2SF y) as [sy | sy | | sy my ey];
    simpl; intros [[H1 H2] | [H1 H2]]; try discriminate;
    try (destruct sx; try discriminate); try (destruct sy; try discriminate);
    try reflexivity;
    match goal with
    | |- context [binary_round_aux ?p ?em ?s ?m ?e ?l] =>
        destruct (binary_round_aux_sign s m e l) as [-> | [-> | (m' & e' & ->)]];
        [lia | reflexivity | reflexivity | reflexivity]
    end.
Qed.

(** *** The lower rate bound *)

Lemma rateSafe_above_minus_one r :
  rateSafe r -> (r <=? -1) = false /\ (Js.isNaN r = false -> (-1 <? r) = true).
Proof.
  intros [N | L].
  - split; [| congruence].
    apply isNaN_spec in N. rewrite FloatAxioms.leb_spec, N. reflexivity.
  - assert ((-1 <? r) = true) as G
        by (apply lt_le_trans with (y := -0.99); [reflexivity | exact L]).
    split; [apply ltb_not_leb; exact G | intros _; exact G].
Qed.

Lemma clamp_rateSafe newRate :
  rateSafe (if newRate <=? -0.99 then -0.99 else newRate).
Proof.
  unfold rateSafe. destruct (newRate <=? -0.99) eqn:E.
  - right. reflexivity.
  - destruct (Js.isNaN newRate) eqn:N; [left; reflexivity | right].
    apply leb_total; [exact N | reflexivity |].
    destruct (newRate <? -0.99) eqn:L; [| reflexivity].
    apply ltb_leb in L. congruence.
Qed.

End FloatFacts.

(** ** The chronological sort *)

Module SortFacts.
Import Xirr Spec.

Lemma insertByTime_perm x l : Permutation (insertByTime x l) (x :: l).
Proof.
  induction l as [| y l IH]; simpl.
  - apply Permutation_refl.
  - destruct (getTime (date x) <=? getTime (date y))%Z.
    + apply Permutation_refl.
    + eapply perm_trans; [apply perm_skip, IH | apply perm_swap].
Qed.

Lemma sortByTime_perm l : Permutation (sortByTime l) l.
Proof.
  induction l as [| x l IH]; simpl.
  - apply perm_nil.
  - eapply perm_trans; [apply insertByTime_perm | apply perm_skip, IH].
Qed.

Lemma sortByTime_length l : List.length (sortByTime l) = List.length l.
Proof. apply Permutation_length, sortByTime_perm. Qed.

Lemma insertByTime_sorted x l :
  StronglySorted byTime l -> StronglySorted byTime (insertByTime x l).
Proof.
  induction 1 as [| y l Hl IH Hy]; simpl.
  - repeat constructor.
  - destruct (Z.leb_spec (getTime (date x)) (getTime (date y))) as [Hxy | Hxy].
    + constructor; [constructor; assumption |].
      constructor; [exact Hxy |].
      eapply Forall_impl; [| exact Hy].
      unfold byTime, timeOf. intros z Hz. lia.
    + constructor; [exact IH |].
      eapply Permutation_Forall; [apply Permutation_sym, insertByTime_perm |].
      constructor; [unfold byTime, timeOf; lia | exact Hy].
Qed.

Lemma sortByTime_sorted l : StronglySorted byTime (sortByTime l).
Proof.
  induction l as [| x l IH]; simpl.
  - constructor.
  - apply insertByTime_sorted, IH.
Qed.

(** Inserting two flows of different dates commutes. *)
Lemma insertByTime_comm x y l :
  timeOf x <> timeOf y ->
  insertByTime x (insertByTime y l) = insertByTime y (insertByTime x l).
Proof.
  unfold timeOf. intros Hxy. induction l as [| z l IH]; simpl.
  - destruct (Z.leb_spec (getTime (date x)) (getTime (date y))),
      (Z.leb_spec (getTime (date y)) (getTime (date x))); try reflexivity; lia.
  - destruct (Z.leb_spec (getTime (date y)) (getTime (date z))) as [Hyz | Hyz],
      (Z.leb_spec (getTime (date x)) (getTime (date z))) as [Hxz | Hxz]; simpl;
      destruct (Z.leb_spec (getTime (date x)) (getTime (date y))),
        (Z.leb_spec (getTime (date y)) (getTime (date x)));
      destruct (Z.leb_spec (getTime (date y)) (getTime (date z))),
        (Z.leb_spec (getTime (date x)) (getTime (date z)));
      try lia; try reflexivity.
    all: f_equal; exact IH.
Qed.

(** With pairwise different dates the sorted list depends on the flows
    only, not on their input order. *)
Lemma sortByTime_order_independent l1 l2 :
  Permutation l1 l2 -> NoDup (map timeOf l1) -> sortByTime l1 = sortByTime l2.
Proof.
  induction 1 as [| x l l' Hp IH | x y l | l l' l'' Hp1 IH1 Hp2 IH2]; simpl; intros Hnd.
  - reflexivity.
  - rewrite IH; [reflexivity |]. inversion Hnd; assumption.
  - apply insertByTime_comm.
    inversion Hnd as [| ? ? Hin _]; subst. simpl in Hin.
    intros E. apply Hin. left. symmetry. exact E.
  - rewrite IH1 by exact Hnd. apply IH2.
    eapply Permutation_NoDup; [apply Permutation_map; exact Hp1 | exact Hnd].
Qed.

Lemma last_In {A} (l : list A) (d : A) : l <> [] -> In (last l d) l.
Proof.
  induction l as [| x l IH]; [congruence |]. intros _.
  destruct l as [| y l]; [left; reflexivity |].
  right. apply IH. discriminate.
Qed.

Lemma sorted_head_least (f : CashFlow) l :
  StronglySorted byTime (f :: l) -> forall g, In g (f :: l) -> byTime f g.
Proof.
  intros Hs g [<- | Hg].
  - unfold byTime. lia.
  - inversion Hs as [| ? ? _ Hall]; subst.
    rewrite Forall_forall in Hall. apply Hall, Hg.
Qed.

Lemma sorted_last_greatest l :
  StronglySorted byTime l -> forall d g, In g l -> byTime g (last l d).
Proof.
  induction 1 as [| f l Hl IH Hf]; intros d g Hg.
  - destruct Hg.
  - destruct l as [| f' l'].
    + destruct Hg as [<- | []]. unfold byTime. simpl. lia.
    + change (last (f :: f' :: l') d) with (last (f' :: l') d).
      destruct Hg as [<- | Hg].
      * rewrite Forall_forall in Hf. apply Hf, last_In. discriminate.
      * apply IH, Hg.
Qed.


(** The last flow of the sorted copy is one of the input flows and none
    is later. *)
Lemma chronologicallyLast_latest cashFlows f :
  chronologicallyLast cashFlows = Some f ->
  In f cashFlows /\ forall g, In g cashFlows -> byTime g f.
Proof.
  unfold chronologicallyLast. intros E.
  pose proof (sortByTime_perm cashFlows) as Hp.
  pose proof (sortByTime_sorted cashFlows) as Hs.
  destruct (sortByTime cashFlows) as [| f0 l] eqn:El; [discriminate |].
  injection E as <-. split.
  - eapply Permutation_in; [exact Hp | apply (last_In (f0 :: l) f0); discriminate].
  - intros g Hg. apply (sorted_last_greatest (f0 :: l) Hs f0 g).
    eapply Permutation_in; [apply Permutation_sym; exact Hp | exact Hg].
Qed.

End SortFacts.

(** ** The solvers *)

Module SolverFacts.
Import Xirr Spec FloatFacts.

Section WithRuntime.
Context {rt : Runtime}.

(** Erasing the log gives the loop of the source. *)
Lemma newtonLoopLog_erase cashFlows startDate fuel :
  forall rate iterations,
    fst (newtonLoopLog cashFlows startDate fuel rate iterations)
    = newtonLoop cashFlows startDate fuel rate iterations.
Proof.
  induction fuel as [| fuel IH]; intros rate iterations; simpl; [reflexivity |].
  destruct (abs (calculateNPV rate cashFlows startDate) <? precision); [reflexivity |].
  destruct (calculateDerivativeNPV rate cashFlows startDate =? 0); [reflexivity |].
  rewrite <- IH.
  destruct (newtonLoopLog cashFlows startDate fuel _ (S iterations)); reflexivity.
Qed.

(** Exit state of the Newton-Raphson loop: the index of the iteration that
    broke out, or the loop bound on exhaustion; [converged] is set only on
    a residual below the precision, at the rate returned. *)
Lemma newtonLoop_exit cashFlows startDate fuel :
  forall rate iterations r n c,
    newtonLoop cashFlows startDate fuel rate iterations = (r, n, c) ->
    (iterations <= n <= iterations + fuel)%nat
    /\ (c = true ->
        (n < iterations + fuel)%nat
        /\ (abs (calculateNPV r cashFlows startDate) <? precision) = true).
Proof.
  induction fuel as [| fuel IH]; intros rate iterations r n c; simpl.
  - intros [= <- <- <-]. split; [lia | discriminate].
  - destruct (abs (calculateNPV rate cashFlows startDate) <? precision) eqn:Hnpv.
    + intros [= <- <- <-]. split; [lia |]. intros _. split; [lia | exact Hnpv].
    + destruct (calculateDerivativeNPV rate cashFlows startDate =? 0).
      * intros [= <- <- <-]. split; [lia | discriminate].
      * intros H. apply IH in H. destruct H as [Hn Hc]. split; [lia |].
        intros Ec. destruct (Hc Ec) as [Hlt Hres]. split; [lia | exact Hres].
Qed.

(** Every kernel call of the loop is at a safe rate when it starts from
    one, and so is the rate it returns. *)
Lemma newtonLoopLog_safe cashFlows startDate fuel :
  forall rate iterations,
    rateSafe rate ->
    let '((r, _, _), log) := newtonLoopLog cashFlows startDate fuel rate iterations in
    rateSafe r /\ Forall (fun ev => rateSafe (evaluatedAt ev)) log.
Proof.
  induction fuel as [| fuel IH]; intros rate iterations Hsafe; simpl.
  - split; [exact Hsafe | constructor].
  - destruct (abs (calculateNPV rate cashFlows startDate) <? precision).
    + split; [exact Hsafe | apply Forall_cons; [exact Hsafe | apply Forall_nil]].
    + destruct (calculateDerivativeNPV rate cashFlows startDate =? 0).
      * split; [exact Hsafe |].
        apply Forall_cons; [exact Hsafe |].
        apply Forall_cons; [exact Hsafe | apply Forall_nil].
      * match goal with
        | |- context [newtonLoopLog _ _ _ ?r' ?i'] =>
            specialize (IH r' i' (clamp_rateSafe _));
            destruct (newtonLoopLog cashFlows startDate fuel r' i') as [[[r n] c] log]
        end.
        destruct IH as [Hr Hlog]. split; [exact Hr |].
        apply Forall_cons; [exact Hsafe |].
        apply Forall_cons; [exact Hsafe | exact Hlog].
Qed.

Lemma newton_finalNPV cashFlows startDate guess :
  let res := calculateWithNewtonRaphson cashFlows startDate guess in
  finalNPV res = calculateNPV (rate res) cashFlows startDate.
Proof.
  unfold calculateWithNewtonRaphson.
  destruct (newtonLoop cashFlows startDate maxIterations guess 0) as [[r n] c].
  reflexivity.
Qed.

Lemma newton_converged_residual cashFlows startDate guess :
  let res := calculateWithNewtonRaphson cashFlows startDate guess in
  converged res = true -> (abs (finalNPV res) <? precision) = true.
Proof.
  unfold calculateWithNewtonRaphson.
  destruct (newtonLoop cashFlows startDate maxIterations guess 0) as [[r n] c] eqn:E.
  simpl. intros ->. apply newtonLoop_exit in E. apply E. reflexivity.
Qed.

(** X1.  The iteration count reported by the Newton-Raphson solver is
    between 1 and 101, and at most 100 when the solver converged. *)
Lemma newton_iterations_range cashFlows startDate guess :
  let res := calculateWithNewtonRaphson cashFlows startDate guess in
  (1 <= iterations res <= 101)%nat
  /\ (converged res = true -> (iterations res <= 100)%nat).
Proof.
  unfold calculateWithNewtonRaphson.
  destruct (newtonLoop cashFlows startDate maxIterations guess 0) as [[r n] c] eqn:E.
  simpl. apply newtonLoop_exit in E. unfold maxIterations in E.
  destruct E as [Hn Hc]. split; [lia |]. intros Ec. apply Hc in Ec. lia.
Qed.

(** [calculateWithBrent] enters its loop from the given bracket, or from
    the rescue bracket when the product of the endpoint values is not
    negative. *)
Lemma calculateWithBrent_entry cashFlows startDate lowerBound upperBound :
  let fa := calculateNPV lowerBound cashFlows startDate in
  let fb := calculateNPV upperBound cashFlows startDate in
  let d := upperBound - lowerBound in
  calculateWithBrent cashFlows startDate lowerBound upperBound
  = if Js.geb (fa * fb) 0
    then brentFrom cashFlows startDate (-0.5) 5.0 lowerBound d d
           (calculateNPV (-0.5) cashFlows startDate)
           (calculateNPV 5.0 cashFlows startDate) fa
    else brentFrom cashFlows startDate lowerBound upperBound lowerBound d d fa fb fa.
Proof.
  unfold calculateWithBrent, brentFrom.
  destruct (Js.geb _ 0); reflexivity.
Qed.

Lemma brentFrom_finalNPV cashFlows startDate a b c d e fa fb fc :
  let res := brentFrom cashFlows startDate a b c d e fa fb fc in
  finalNPV res = calculateNPV (rate res) cashFlows startDate.
Proof.
  unfold brentFrom.
  destruct (brentLoop cashFlows startDate maxIterations a b c d e fa fb fc 0) as [[r n] k].
  reflexivity.
Qed.

(** Exit state of the bracketing loop, as for the Newton-Raphson one. *)
Lemma brentLoop_exit cashFlows startDate fuel :
  forall a b c d e fa fb fc iterations r n k,
    brentLoop cashFlows startDate fuel a b c d e fa fb fc iterations = (r, n, k) ->
    (iterations <= n <= iterations + fuel)%nat
    /\ (k = true -> (n < iterations + fuel)%nat).
Proof.
  induction fuel as [| fuel IH]; intros a b c d e fa fb fc iterations r n k.
  - simpl. intros [= <- <- <-]. split; [lia | discriminate].
  - cbn [brentLoop].
    destruct (if abs fc <? abs fb then _ else _) as [[[[[a1 b1] c1] fa1] fb1] fc1].
    destruct ((abs (0.5 * (c1 - b1)) <=? 2 * precision * abs b1 + precision)
              || (abs fb1 <? precision)).
    + intros [= <- <- <-]. split; [lia |]. intros _. lia.
    + repeat match goal with
             | |- context [if ?g then _ else _] => destruct g
             end;
        intros H; apply IH in H; destruct H as [Hn Hk]; (split; [lia |]);
        intros Ek; specialize (Hk Ek); lia.
Qed.

(** X2.  The iteration count reported by the bracketing solver is between
    1 and 101, and at most 100 when the solver converged. *)
Lemma brent_iterations_range cashFlows startDate lowerBound upperBound :
  let res := calculateWithBrent cashFlows startDate lowerBound upperBound in
  (1 <= iterations res <= 101)%nat
  /\ (converged res = true -> (iterations res <= 100)%nat).
Proof.
  cbv zeta. rewrite calculateWithBrent_entry. cbv zeta. unfold brentFrom.
  destruct (Js.geb _ 0);
    match goal with
    | |- context [brentLoop ?cf ?sd ?fu ?a ?b ?c ?d ?e ?fa ?fb ?fc 0] =>
        destruct (brentLoop cf sd fu a b c d e fa fb fc 0) as [[r n] k] eqn:E
    end;
    simpl; apply brentLoop_exit in E; unfold maxIterations in E;
    destruct E as [Hn Hk]; (split; [lia |]); intros Ek; apply Hk in Ek; lia.
Qed.

Lemma brent_finalNPV cashFlows startDate lowerBound upperBound :
  let res := calculateWithBrent cashFlows startDate lowerBound upperBound in
  finalNPV res = calculateNPV (rate res) cashFlows startDate.
Proof.
  cbv zeta. rewrite calculateWithBrent_entry.
  destruct (Js.geb _ 0); apply brentFrom_finalNPV.
Qed.

(** *** The reconciler *)

(** What an accepted sequence yields, field by field. *)
Lemma calculateXIRR_Some cashFlows res :
  calculateXIRR cashFlows = Some res ->
  exists first final,
    chronologicallyFirst cashFlows = Some first
    /\ chronologicallyLast cashFlows = Some final
    /\ (2 <= List.length cashFlows)%nat
    /\ degenerate cashFlows = false
    /\ newtonRaphson res = calculateWithNewtonRaphson (sortByTime cashFlows) (date first) 0.1
    /\ brent res = calculateWithBrent (sortByTime cashFlows) (date first) (-0.99) 10.0
    /\ xirr res
       = rate (if abs (finalNPV (newtonRaphson res)) <? abs (finalNPV (brent res))
               then newtonRaphson res else brent res)
    /\ difference res = abs (rate (newtonRaphson res) - rate (brent res))
    /\ hasDifference res = Js.gtb (difference res) 0.00001
    /\ totalDays res = dateDiffInDays (date first) (date final)
    /\ annualized res = (365 <? totalDays res)%Z
    /\ simpleReturn res
       = Math_pow (1 + xirr res) (Js.ofZ (totalDays res) / 365.25) - 1.
Proof.
  unfold calculateXIRR, degenerate, chronologicallyFirst, chronologicallyLast, netSum.
  destruct (Nat.ltb_spec (List.length cashFlows) 2) as [Hlen | Hlen]; [discriminate |].
  destruct (sortByTime cashFlows) as [| first rest] eqn:Es; [discriminate |].
  destruct ((amount (last (first :: rest) first) <? 0)
            && (sumAmounts (first :: rest) <? 0)) eqn:G; [discriminate |].
  intros [= <-]. exists first, (last (first :: rest) first).
  cbn [xirr difference hasDifference totalDays annualized simpleReturn newtonRaphson brent
       hd_error].
  repeat split; try reflexivity; assumption.
Qed.

(** Every sequence of at least two flows that the guard lets through gets
    a result. *)
Lemma calculateXIRR_accepts cashFlows :
  (2 <= List.length cashFlows)%nat -> degenerate cashFlows = false ->
  exists res, calculateXIRR cashFlows = Some res.
Proof.
  unfold calculateXIRR, degenerate, chronologicallyLast, netSum. intros Hlen.
  destruct (Nat.ltb_spec (List.length cashFlows) 2) as [Hlt | _]; [lia |].
  pose proof (SortFacts.sortByTime_length cashFlows) as Hl.
  destruct (sortByTime cashFlows) as [| first rest]; [simpl in Hl; lia |].
  intros ->. eexists. reflexivity.
Qed.

Lemma calculateXIRR_rejects cashFlows :
  degenerate cashFlows = true -> calculateXIRR cashFlows = None.
Proof.
  unfold calculateXIRR, degenerate, chronologicallyLast, netSum.
  destruct (List.length cashFlows <? 2)%nat; [reflexivity |].
  destruct (sortByTime cashFlows) as [| first rest]; [reflexivity |].
  intros ->. reflexivity.
Qed.

End WithRuntime.

End SolverFacts.

(** ** The reconciler on two flows *)

Section TwoFlows.
Import Xirr Spec FloatFacts SolverFacts.
Context {rt : Runtime}.

Lemma dateDiffInDays_same t : dateDiffInDays t t = 0%Z.
Proof. unfold dateDiffInDays. rewrite Z.sub_diag. reflexivity. Qed.

Lemma sortByTime_two (f g : CashFlow) :
  (timeOf f < timeOf g)%Z -> sortByTime [f; g] = [f; g].
Proof.
  unfold timeOf. intros H. simpl.
  destruct (Z.leb_spec (getTime (date f)) (getTime (date g))); [reflexivity | lia].
Qed.

(** The residual at the chosen rate is below the precision whenever
    Newton-Raphson converged and the other residual is a number. *)
Lemma chosen_residual cashFlows res first :
  calculateXIRR cashFlows = Some res ->
  chronologicallyFirst cashFlows = Some first ->
  converged (newtonRaphson res) = true ->
  Js.isNaN (finalNPV (brent res)) = false ->
  (abs (calculateNPV (xirr res) (sortByTime cashFlows) (date first)) <? precision) = true.
Proof.
  intros E Hfirst Hc Hnan.
  destruct (calculateXIRR_Some _ _ E) as (f & final & Hf & _ & _ & _ & Hn & Hb & Hx & _).
  rewrite Hfirst in Hf. injection Hf as <-.
  pose proof (newton_converged_residual (sortByTime cashFlows) (date first) 0.1) as HN.
  pose proof (newton_finalNPV (sortByTime cashFlows) (date first) 0.1) as HNf.
  pose proof (brent_finalNPV (sortByTime cashFlows) (date first) (-0.99) 10.0) as HBf.
  cbv zeta in HN, HNf, HBf. rewrite <- Hn in HN, HNf. rewrite <- Hb in HBf.
  specialize (HN Hc). rewrite Hx.
  destruct (abs (finalNPV (newtonRaphson res)) <? abs (finalNPV (brent res))) eqn:Hcmp.
  - rewrite <- HNf. exact HN.
  - rewrite <- HBf. apply le_lt_trans with (y := abs (finalNPV (newtonRaphson res))).
    + apply leb_total; [| rewrite isNaN_abs; exact Hnan | exact Hcmp].
      apply ltb_not_NaN_l with (y := precision). exact HN.
    + exact HN.
Qed.

(** C1 (amended).  For every two-flow sequence [(-P, t0), (F, t1)] with
    P > 0, F > 0 and t1 after t0, [calculateXIRR] returns a result, and
    whenever the Newton-Raphson solver converged and the residual of the
    bracketing solver is a number, the chosen rate r satisfies
    |-P/(1+r)^0 + F/(1+r)^(daysBetween(t0,t1)/365.25)| < 1e-6: a bound on the
    absolute NPV residual, in currency units, not a relative error on F. *)
Theorem C1_two_flow_absolute_residual (P F : float) (t0 t1 : Date) (l0 l1 : option string) :
  (0 <? P) = true -> (0 <? F) = true -> (getTime t0 < getTime t1)%Z ->
  exists res,
    calculateXIRR [mkCashFlow t0 (- P) l0; mkCashFlow t1 F l1] = Some res
    /\ (converged (newtonRaphson res) = true ->
        Js.isNaN (finalNPV (brent res)) = false ->
        (abs (0 + - P / Math_pow (1 + xirr res) 0
              + F / Math_pow (1 + xirr res) (Js.ofZ (dateDiffInDays t0 t1) / 365.25))
         <? 0.000001) = true).
Proof.
  intros HP HF Ht.
  set (flows := [mkCashFlow t0 (- P) l0; mkCashFlow t1 F l1]).
  assert (sortByTime flows = flows) as Hsorted by (apply sortByTime_two; exact Ht).
  assert (degenerate flows = false) as Hdeg.
  { unfold degenerate, chronologicallyLast. rewrite Hsorted. cbn [flows last amount].
    rewrite (ltb_asym _ _ HF). reflexivity. }
  destruct (calculateXIRR_accepts flows) as [res E]; [simpl; lia | exact Hdeg |].
  exists res. split; [exact E |]. intros Hc Hnan.
  pose proof (chosen_residual flows res (mkCashFlow t0 (- P) l0) E) as H.
  unfold chronologicallyFirst in H. rewrite Hsorted in H.
  specialize (H eq_refl Hc Hnan).
  unfold calculateNPV in H. cbn [flows fold_left date amount] in H.
  rewrite dateDiffInDays_same in H. exact H.
Qed.

End TwoFlows.

(** C1 at a doubling over four years (1461 days). *)
Lemma C1_two_flow_absolute_residual_witness :
  exists res,
    Xirr.calculateXIRR (rt := Ref.xirrRuntime)
      [Xirr.mkCashFlow (Ref.newDate "2020-01-01") (- 100) None;
       Xirr.mkCashFlow (Ref.newDate "2024-01-01") 200 None] = Some res
    /\ (Xirr.converged (Xirr.newtonRaphson res) = true ->
        Js.isNaN (Xirr.finalNPV (Xirr.brent res)) = false ->
        (abs (0 + - 100 / Ref.pow (1 + Xirr.xirr res) 0
              + 200 / Ref.pow (1 + Xirr.xirr res)
                        (Js.ofZ (Xirr.dateDiffInDays (rt := Ref.xirrRuntime)
                                   (Ref.newDate "2020-01-01") (Ref.newDate "2024-01-01"))
                         / 365.25))
         <? 0.000001) = true).
Proof.
  apply (@C1_two_flow_absolute_residual Ref.xirrRuntime 100 200
           (Ref.newDate "2020-01-01") (Ref.newDate "2024-01-01") None None).
  - reflexivity.
  - reflexivity.
  - vm_compute. reflexivity.
Defined.

(** C1 as stated fails on a near-total loss: one million paid, a
    thousandth returned four years later.  Both solvers stop at the lower
    rate bound -0.99, where P(1+r)^4 is ten times F.  It also fails when
    both solvers converge: with amounts below the precision every NPV is
    below it, Newton-Raphson converges at its initial guess 0.10 and that
    rate is chosen, where P(1+r)^4 is a fifth short of F. *)
Lemma C1_relative_error_counterexample :
  let t0 := Ref.newDate "2020-01-01" in
  let t1 := Ref.newDate "2024-01-01" in
  let holds (P F : float) :=
    match Xirr.calculateXIRR (rt := Ref.xirrRuntime)
            [Xirr.mkCashFlow t0 (- P) None; Xirr.mkCashFlow t1 F None] with
    | Some res =>
        Spec.withinRelative F
          (P * Ref.pow (1 + Xirr.xirr res)
                 (Js.ofZ (Xirr.dateDiffInDays (rt := Ref.xirrRuntime) t0 t1) / 365.25))
          0.000001
    | None => true
    end in
  let bothConverged (P F : float) :=
    match Xirr.calculateXIRR (rt := Ref.xirrRuntime)
            [Xirr.mkCashFlow t0 (- P) None; Xirr.mkCashFlow t1 F None] with
    | Some res =>
        Xirr.converged (Xirr.newtonRaphson res) && Xirr.converged (Xirr.brent res)
    | None => false
    end in
  (Xirr.getTime t0 < Xirr.getTime t1)%Z
  /\ ((0 <? 1000000) = true /\ (0 <? 0.001) = true /\ holds 1000000 0.001 = false)
  /\ ((0 <? 0.0000005) = true /\ (0 <? 0.0000009) = true
      /\ bothConverged 0.0000005 0.0000009 = true
      /\ holds 0.0000005 0.0000009 = false).
Proof.
  cbv zeta. repeat split; vm_compute; reflexivity.
Qed.

(** ** The reconciler *)

Section Reconciler.
Import Xirr Spec FloatFacts SolverFacts.
Context {rt : Runtime}.


(** C3.  A sequence whose chronologically last flow is negative and whose
    net sum is negative gets no result, hence no solver output; every
    sequence of at least two flows outside that condition gets a result
    that carries the outputs of both solvers, run on the sorted flows from
    the earliest date. *)
Theorem C3_degenerate_guard :
  (forall cashFlows final,
      chronologicallyLast cashFlows = Some final ->
      (amount final <? 0) = true -> (netSum cashFlows <? 0) = true ->
      calculateXIRR cashFlows = None)
  /\ (forall cashFlows,
         (2 <= List.length cashFlows)%nat ->
         degenerate cashFlows = false ->
         exists res first,
           calculateXIRR cashFlows = Some res
           /\ chronologicallyFirst cashFlows = Some first
           /\ newtonRaphson res
              = calculateWithNewtonRaphson (sortByTime cashFlows) (date first) 0.1
           /\ brent res
              = calculateWithBrent (sortByTime cashFlows) (date first) (-0.99) 10.0).
Proof.
  split.
  - intros cashFlows final Hl Hneg Hnet. apply calculateXIRR_rejects.
    unfold degenerate. rewrite Hl, Hneg, Hnet. reflexivity.
  - intros cashFlows Hlen Hdeg.
    destruct (calculateXIRR_accepts cashFlows Hlen Hdeg) as [res E].
    destruct (calculateXIRR_Some _ _ E) as (first & final & Hf & _ & _ & _ & Hn & Hb & _).
    exists res, first. auto.
Qed.



(** C10 (amended).  For every input sequence whose flows have pairwise
    different dates, and every permutation of it, [calculateXIRR] returns
    the same result, all fields included. *)
Theorem C10_order_independent_on_distinct_dates (cashFlows shuffled : list CashFlow) :
  Permutation cashFlows shuffled ->
  NoDup (map timeOf cashFlows) ->
  calculateXIRR shuffled = calculateXIRR cashFlows.
Proof.
  intros Hp Hnd. unfold calculateXIRR.
  rewrite <- (Permutation_length Hp).
  rewrite <- (SortFacts.sortByTime_order_independent _ _ Hp Hnd).
  reflexivity.
Qed.

End Reconciler.


(** C3 at a sequence ending in a fee after a partial recovery, and at a
    doubling. *)
Lemma C3_degenerate_guard_witness :
  Xirr.calculateXIRR (rt := Ref.xirrRuntime) Spec.sameDayTail = None
  /\ exists res first,
       Xirr.calculateXIRR (rt := Ref.xirrRuntime) Spec.doubling = Some res
       /\ Spec.chronologicallyFirst Spec.doubling = Some first
       /\ Xirr.newtonRaphson res
          = Xirr.calculateWithNewtonRaphson (rt := Ref.xirrRuntime)
              (Xirr.sortByTime Spec.doubling) (Xirr.date first) 0.1
       /\ Xirr.brent res
          = Xirr.calculateWithBrent (rt := Ref.xirrRuntime)
              (Xirr.sortByTime Spec.doubling) (Xirr.date first) (-0.99) 10.0.
Proof.
  destruct (@C3_degenerate_guard Ref.xirrRuntime) as [Hreject Haccept]. split.
  - apply (Hreject Spec.sameDayTail (Spec.onDay "2024-01-01" (-10)));
      vm_compute; reflexivity.
  - apply (Haccept Spec.doubling); [apply le_n | vm_compute; reflexivity].
Defined.



(** C10 at a doubling, given in reverse order. *)
Lemma C10_order_independent_on_distinct_dates_witness :
  Xirr.calculateXIRR (rt := Ref.xirrRuntime) (rev Spec.doubling)
  = Xirr.calculateXIRR (rt := Ref.xirrRuntime) Spec.doubling.
Proof.
  apply (@C10_order_independent_on_distinct_dates Ref.xirrRuntime Spec.doubling
           (rev Spec.doubling)).
  - apply perm_swap.
  - vm_compute. constructor.
    + intros [H | []]. discriminate H.
    + constructor; [intros [] | constructor].
Defined.

(** C10 as stated fails when two flows share a date: the sort keeps their
    input order, so swapping a distribution and a fee of the same day
    changes the last flow, and with it the verdict of the guard. *)
Lemma C10_same_date_counterexample :
  Permutation Spec.sameDayTail Spec.sameDayTailSwapped
  /\ Xirr.calculateXIRR (rt := Ref.xirrRuntime) Spec.sameDayTail = None
  /\ match Xirr.calculateXIRR (rt := Ref.xirrRuntime) Spec.sameDayTailSwapped with
     | Some res => Xirr.lastCashFlow res =? 50
     | None => false
     end = true.
Proof.
  split; [apply perm_skip, perm_swap |].
  split; vm_compute; reflexivity.
Qed.

(** ** The Newton-Raphson solver *)

Section NewtonRaphson.
Import Xirr Spec FloatFacts SolverFacts.
Context {rt : Runtime}.

(** The log of [newtonEvaluations] ends with the evaluation of the
    residual at the rate the solver returns. *)
Lemma newtonEvaluations_final cashFlows startDate guess :
  exists log,
    newtonEvaluations cashFlows startDate guess
    = log ++ [EvalNPV (rate (calculateWithNewtonRaphson cashFlows startDate guess))].
Proof.
  unfold newtonEvaluations, calculateWithNewtonRaphson.
  rewrite <- newtonLoopLog_erase.
  destruct (newtonLoopLog cashFlows startDate maxIterations guess 0) as [[[r n] c] log].
  exists log. reflexivity.
Qed.

(** C6 (amended).  In the Newton-Raphson solver started from the default
    guess 0.10, every rate at which the NPV or its derivative is evaluated,
    the final residual included, is not a number or at least -0.99 (a step
    to -0.99 or below is replaced by -0.99); so it is never at or below the
    singular point -1, and it is strictly greater than -1 unless it is not a
    number. *)
Theorem C6_newton_never_at_or_below_minus_one (cashFlows : list CashFlow) (startDate : Date) :
  Forall
    (fun ev =>
       let r := evaluatedAt ev in
       (Js.isNaN r = true \/ (-0.99 <=? r) = true)
       /\ (Js.isNaN r = true \/ (-1 <? r) = true)
       /\ (r <=? -1) = false)
    (newtonEvaluations cashFlows startDate 0.1).
Proof.
  assert (rateSafe 0.1) as H0 by (right; reflexivity).
  pose proof (newtonLoopLog_safe cashFlows startDate maxIterations 0.1 0 H0) as H.
  unfold newtonEvaluations.
  destruct (newtonLoopLog cashFlows startDate maxIterations 0.1 0) as [[[r n] c] log].
  destruct H as [Hr Hlog].
  assert (Forall (fun ev => rateSafe (evaluatedAt ev)) (log ++ [EvalNPV r])) as Hall.
  { apply Forall_app. split; [exact Hlog |].
    apply Forall_cons; [exact Hr | apply Forall_nil]. }
  eapply Forall_impl; [| exact Hall].
  intros ev Hsafe. cbv zeta.
  destruct (rateSafe_above_minus_one _ Hsafe) as [Hle Hgt].
  split; [exact Hsafe |]. split; [| exact Hle].
  destruct (Js.isNaN (evaluatedAt ev)) eqn:N; [left; reflexivity | right; apply Hgt; reflexivity].
Qed.

End NewtonRaphson.

(** C6 as stated fails when the first step is not a number: with two
    inflows of 1.5e308 the NPV at 0.10 overflows to infinity and so does
    its derivative, their quotient is NaN, NaN is not at or below -0.99, so
    it becomes the rate and the kernel is evaluated at it. *)
Lemma C6_rate_not_a_number_counterexample :
  forallb (fun ev => -1 <? Spec.evaluatedAt ev)
    (Spec.newtonEvaluations (rt := Ref.xirrRuntime) Spec.hugeInflows
       (Ref.newDate "2020-01-01") 0.1) = false
  /\ match Xirr.calculateXIRR (rt := Ref.xirrRuntime) Spec.hugeInflows with
     | Some res => Js.isNaN (Xirr.rate (Xirr.newtonRaphson res))
     | None => false
     end = true.
Proof.
  split; vm_compute; reflexivity.
Qed.

(** C7 fails on exhaustion.  On a near-total loss the root lies below
    -0.99, every step is clamped, and the loop runs its 100 iterations (100
    derivative evaluations) without converging; the result then reports 101
    iterations, one more than were run and than the bound of 100.  The
    reconciler hands this input to the solver.  The same happens when
    100000 shrinks to 1 within a year. *)
Theorem C7_exhausted_run_reports_101_iterations :
  let startDate := Ref.newDate "2020-01-01" in
  let res :=
    Xirr.calculateWithNewtonRaphson (rt := Ref.xirrRuntime) Spec.nearTotalLoss startDate 0.1 in
  Xirr.iterations res = 101%nat
  /\ Xirr.converged res = false
  /\ List.length
       (filter Spec.isDerivative
          (Spec.newtonEvaluations (rt := Ref.xirrRuntime) Spec.nearTotalLoss startDate 0.1))
     = 100%nat
  /\ Xirr.finalNPV res
     = Xirr.calculateNPV (rt := Ref.xirrRuntime) (Xirr.rate res) Spec.nearTotalLoss startDate
  /\ option_map Xirr.newtonRaphson
       (Xirr.calculateXIRR (rt := Ref.xirrRuntime) Spec.nearTotalLoss) = Some res
  /\ Xirr.iterations
       (Xirr.calculateWithNewtonRaphson (rt := Ref.xirrRuntime) Spec.oneYearLoss
          (Ref.newDate "2024-01-01") 0.1) = 101%nat.
Proof.
  cbv zeta. repeat split; vm_compute; reflexivity.
Qed.

(** ** The bracketing solver *)

Section Brent.
Import Xirr Spec FloatFacts SolverFacts.
Context {rt : Runtime}.

(** When the NPV values at the default endpoints -0.99 and 10.0 have the
    same sign, the bracketing solver is its loop entered from the endpoints
    -0.5 and 5.0 with the NPV evaluated anew at both, while the third point,
    its NPV value and the two step sizes stay those of the default bracket. *)
Lemma calculateWithBrent_rescue_entry (cashFlows : list CashFlow) (startDate : Date) :
  sameSign (calculateNPV (-0.99) cashFlows startDate) (calculateNPV 10.0 cashFlows startDate) ->
  calculateWithBrent cashFlows startDate (-0.99) 10.0
  = brentFrom cashFlows startDate (-0.5) 5.0 (-0.99) (10.0 - -0.99) (10.0 - -0.99)
      (calculateNPV (-0.5) cashFlows startDate)
      (calculateNPV 5.0 cashFlows startDate)
      (calculateNPV (-0.99) cashFlows startDate).
Proof.
  intros Hsign. rewrite calculateWithBrent_entry. cbv zeta.
  unfold Js.geb. rewrite (sameSign_mul_nonneg _ _ Hsign). reflexivity.
Qed.

End Brent.

(** C8 fails: the retry does not run the loop on the narrower bracket.
    On a total loss the NPV is negative at both default endpoints, so the
    retry is taken; it resets the two endpoints and their NPV values only,
    the third point staying at the default endpoint -0.99 with the default
    step sizes.  The first iteration then swaps that point in as the
    estimate, and the solver reports convergence at the rate -0.99, outside
    [-0.5, 5.0]; the solver run on the bracket [-0.5, 5.0] ends at -0.5. *)
Theorem C8_retry_keeps_default_endpoint :
  let cashFlows := Spec.totalLoss in
  let startDate := Ref.newDate "2020-01-01" in
  let npv := fun r => Xirr.calculateNPV (rt := Ref.xirrRuntime) r cashFlows startDate in
  let res :=
    Xirr.calculateWithBrent (rt := Ref.xirrRuntime) cashFlows startDate (-0.99) 10.0 in
  let retried :=
    Spec.brentOnBracket (rt := Ref.xirrRuntime) cashFlows startDate (-0.5) 5.0 in
  (npv (-0.99) <? 0) = true /\ (npv 10.0 <? 0) = true
  /\ res
     = Spec.brentFrom (rt := Ref.xirrRuntime) cashFlows startDate
         (-0.5) 5.0 (-0.99) (10.0 - -0.99) (10.0 - -0.99)
         (npv (-0.5)) (npv 5.0) (npv (-0.99))
  /\ Xirr.rate res = -0.99
  /\ (Xirr.rate res <? -0.5) = true
  /\ Xirr.converged res = true
  /\ Xirr.rate retried = -0.5
  /\ Xirr.converged retried = true.
Proof.
  cbv zeta.
  assert ((Xirr.calculateNPV (rt := Ref.xirrRuntime) (-0.99) Spec.totalLoss
             (Ref.newDate "2020-01-01") <? 0) = true) as Hlo by (vm_compute; reflexivity).
  assert ((Xirr.calculateNPV (rt := Ref.xirrRuntime) 10.0 Spec.totalLoss
             (Ref.newDate "2020-01-01") <? 0) = true) as Hhi by (vm_compute; reflexivity).
  split; [exact Hlo |]. split; [exact Hhi |].
  split; [apply calculateWithBrent_rescue_entry; right; split; assumption |].
  set (res := Xirr.calculateWithBrent Spec.totalLoss (Ref.newDate "2020-01-01") (-0.99) 10.0).
  set (retried := Spec.brentOnBracket Spec.totalLoss (Ref.newDate "2020-01-01") (-0.5) 5.0).
  assert ((Xirr.rate res, Xirr.converged res) = (-0.99, true)) as Hres
      by (vm_compute; reflexivity).
  assert ((Xirr.rate retried, Xirr.converged retried) = (-0.5, true)) as Hretried
      by (vm_compute; reflexivity).
  pose proof (f_equal fst Hres) as Hrate. pose proof (f_equal snd Hres) as Hconv.
  pose proof (f_equal fst Hretried) as Hrate'. pose proof (f_equal snd Hretried) as Hconv'.
  cbn [fst snd] in Hrate, Hconv, Hrate', Hconv'.
  rewrite Hrate, Hconv, Hrate', Hconv'. repeat split; reflexivity.
Qed.

(** ** The window builder *)

Section WindowBuilder.
Import Xirr Spec.
Context {ps : App.Parsing}.

(** With both dates and both values present the builder sorts the start
    flow, the intermediate flows and the end flow. *)
Lemma buildPeriodCashFlows_present pool startDateStr endDateStr startValue endValue :
  App.truthy startDateStr = true -> App.truthy endDateStr = true ->
  App.truthy startValue = true -> App.truthy endValue = true ->
  App.buildPeriodCashFlows pool startDateStr endDateStr startValue endValue
  = sortByTime
      (windowStart startDateStr startValue
       :: intermediates pool (App.newDate startDateStr) (App.newDate endDateStr)
       ++ [windowEnd endDateStr endValue]).
Proof.
  intros Hsd Hed Hsv Hev. unfold App.buildPeriodCashFlows.
  rewrite Hsd, Hed, Hsv, Hev. cbn [negb orb]. rewrite Hsv. cbn [negb].
  reflexivity.
Qed.

Lemma buildPeriodCashFlows_absent pool startDateStr endDateStr startValue endValue :
  App.truthy startValue = false \/ App.truthy endValue = false ->
  App.buildPeriodCashFlows pool startDateStr endDateStr startValue endValue = [].
Proof.
  unfold App.buildPeriodCashFlows, App.findStartValueForDate. intros [H | H]; rewrite H.
  - destruct (negb (App.truthy startDateStr) || negb (App.truthy endDateStr)
              || negb (App.truthy endValue)); reflexivity.
  - rewrite !orb_true_r. reflexivity.
Qed.

(** The intermediate flows are exactly the complete entries of the pool
    dated strictly between the boundaries. *)
Lemma intermediates_spec pool startDate endDate f :
  In f (intermediates pool startDate endDate) <->
  exists entry,
    In entry pool /\ complete entry = true /\ f = toCashFlow entry
    /\ (getTime startDate < timeOf f < getTime endDate)%Z.
Proof.
  unfold intermediates. rewrite filter_In, in_map_iff, andb_true_iff, !Z.ltb_lt. split.
  - intros [(entry & <- & Hin) Hbetween]. apply filter_In in Hin.
    exists entry. repeat split; tauto.
  - intros (entry & Hin & Hc & -> & Hbetween). split; [| lia].
    exists entry. split; [reflexivity |]. apply filter_In. auto.
Qed.

(** C9 (amended).  For every period with both date strings and both
    values present, the window builder returns the chronologically sorted
    sequence made of exactly: the flow -|startValue| at the start date, every
    pool entry with a date and an amount dated strictly between the start
    and the end date (entries dated on either boundary are left out), and
    the flow endValue, sign kept, at the end date.  When the start value or
    the end value is absent it returns the empty sequence. *)
Theorem C9_window_builder (pool : list App.FlowInput)
    (startDateStr endDateStr startValue endValue : string) :
  let window :=
    App.buildPeriodCashFlows pool startDateStr endDateStr startValue endValue in
  let inner := intermediates pool (App.newDate startDateStr) (App.newDate endDateStr) in
  (App.truthy startDateStr = true -> App.truthy endDateStr = true ->
   App.truthy startValue = true -> App.truthy endValue = true ->
   StronglySorted byTime window
   /\ Permutation window
        (windowStart startDateStr startValue :: inner ++ [windowEnd endDateStr endValue])
   /\ (forall f,
          In f inner <->
          exists entry,
            In entry pool /\ complete entry = true /\ f = toCashFlow entry
            /\ (getTime (App.newDate startDateStr) < timeOf f
                < getTime (App.newDate endDateStr))%Z)
   /\ (forall entry,
          In entry pool ->
          timeOf (toCashFlow entry) = getTime (App.newDate startDateStr)
          \/ timeOf (toCashFlow entry) = getTime (App.newDate endDateStr) ->
          ~ In (toCashFlow entry) inner))
  /\ (App.truthy startValue = false \/ App.truthy endValue = false -> window = []).
Proof.
  cbv zeta. split.
  - intros Hsd Hed Hsv Hev.
    rewrite (buildPeriodCashFlows_present pool _ _ _ _ Hsd Hed Hsv Hev).
    split; [apply SortFacts.sortByTime_sorted |].
    split; [apply SortFacts.sortByTime_perm |].
    split; [intros f; apply intermediates_spec |].
    intros entry _ Hboundary Hin.
    apply intermediates_spec in Hin. destruct Hin as (e' & _ & _ & _ & Hbetween). lia.
  - apply buildPeriodCashFlows_absent.
Qed.

End WindowBuilder.

(** C9 at scenario 3 of the specification, with a pool that holds a flow
    on each boundary date and two flows in between. *)
Lemma C9_window_builder_witness :
  let window :=
    App.buildPeriodCashFlows (ps := Ref.parsing) Spec.samplePool
      "2024-01-01" "2024-12-31" "100000" "50000" in
  StronglySorted Spec.byTime window
  /\ map Xirr.amount window = [-100000; -10; 5000; 50000]
  /\ App.buildPeriodCashFlows (ps := Ref.parsing) Spec.samplePool
       "2024-01-01" "2024-12-31" "" "50000" = [].
Proof.
  destruct (@C9_window_builder Ref.parsing Spec.samplePool
              "2024-01-01" "2024-12-31" "100000" "50000") as [Hpresent _].
  destruct (Hpresent eq_refl eq_refl eq_refl eq_refl) as [Hsorted _].
  destruct (@C9_window_builder Ref.parsing Spec.samplePool
              "2024-01-01" "2024-12-31" "" "50000") as [_ Habsent].
  split; [exact Hsorted |].
  split; [vm_compute; reflexivity | exact (Habsent (or_introl eq_refl))].
Defined.

(** C9 as stated fails on a period whose values are present and whose
    start date is empty: the builder returns the empty sequence, which
    holds neither the start flow nor the end flow. *)
Lemma C9_empty_date_counterexample :
  App.truthy "100000" = true /\ App.truthy "50000" = true
  /\ App.buildPeriodCashFlows (ps := Ref.parsing) Spec.samplePool
       "" "2024-12-31" "100000" "50000" = [].
Proof.
  repeat split.
Qed.

(** ** The scenarios of the specification, run on the reference runtime *)

Section Scenarios.
Import Xirr Spec.

(** Scenario 1: 100000 paid, 115000 returned 365 days later.  Both solvers
    converge, close to 15.01 percent. *)
Example scenario_1_rate :
  match calculateXIRR (rt := Ref.xirrRuntime) scenario1 with
  | Some res =>
      (0.1501 <? xirr res) && (xirr res <? 0.1502)
      && converged (newtonRaphson res) && converged (brent res)
      && negb (hasDifference res) && String.eqb (xirrPercent res) "15.01"
  | None => false
  end = true.
Proof. vm_compute. reflexivity. Qed.

(** Scenario 2: four flows of mixed sign within a year; the solvers agree. *)
Example scenario_2_solvers_agree :
  match calculateXIRR (rt := Ref.xirrRuntime)
          [onDay "2024-01-01" (-100000); onDay "2024-06-15" 5000;
           onDay "2024-09-30" (-10000); onDay "2024-12-31" 115000] with
  | Some res =>
      converged (newtonRaphson res) && converged (brent res) && negb (hasDifference res)
  | None => false
  end = true.
Proof. vm_compute. reflexivity. Qed.

(** Scenario 3: the window of a period that halves its value. *)
Example scenario_3_window :
  let window :=
    App.buildPeriodCashFlows (ps := Ref.parsing) [] "2024-01-01" "2024-12-31"
      "100000" "50000" in
  map amount window = [-100000; 50000]
  /\ match calculateXIRR (rt := Ref.xirrRuntime) window with
     | Some res => (-0.501 <? xirr res) && (xirr res <? -0.5)
     | None => false
     end = true.
Proof. cbv zeta. split; vm_compute; reflexivity. Qed.

(** Scenario 4: two outflows get no result. *)
Example scenario_4_no_result :
  calculateXIRR (rt := Ref.xirrRuntime)
    [onDay "2024-01-01" (-100000); onDay "2024-12-31" (-50000)] = None.
Proof. vm_compute. reflexivity. Qed.

End Scenarios.

(** ** The sort, the day count and the totals of the reconciler *)

Section SortAndTotals.
Import Xirr Spec FloatFacts SolverFacts.
Context {rt : Runtime}.

Lemma insertByTime_datedAt t x l :
  filter (datedAt t) (insertByTime x l) = filter (datedAt t) (x :: l).
Proof.
  induction l as [| y l IH]; [reflexivity |].
  cbn [insertByTime].
  destruct (Z.leb_spec (getTime (date x)) (getTime (date y))) as [Hxy | Hxy];
    [reflexivity |].
  cbn [filter] in *. rewrite IH. unfold datedAt, timeOf.
  destruct (Z.eqb_spec (getTime (date x)) t), (Z.eqb_spec (getTime (date y)) t);
    try reflexivity; lia.
Qed.

(** X3.  The chronological sort used by [calculateXIRR] and the window
    builder returns a permutation of its input in which no flow is dated
    before an earlier one, and it is stable: the flows of any one date keep
    their input order. *)
Theorem sortByTime_stable_sorted_permutation (cashFlows : list CashFlow) :
  StronglySorted byTime (sortByTime cashFlows)
  /\ Permutation (sortByTime cashFlows) cashFlows
  /\ forall t, filter (datedAt t) (sortByTime cashFlows) = filter (datedAt t) cashFlows.
Proof.
  split; [apply SortFacts.sortByTime_sorted |].
  split; [apply SortFacts.sortByTime_perm |].
  intros t. induction cashFlows as [| x l IH]; [reflexivity |].
  cbn [sortByTime fold_right]. fold (sortByTime l).
  rewrite insertByTime_datedAt. cbn [filter]. rewrite IH. reflexivity.
Qed.

Lemma yearOfEra_bounds doe :
  (0 <= doe < 146097)%Z ->
  let yoe := ((doe - doe / 1460 + doe / 36524 - doe / 146096) / 365)%Z in
  let doy := (doe - (365 * yoe + yoe / 4 - yoe / 100))%Z in
  (0 <= yoe <= 399)%Z /\ (0 <= doy <= 365)%Z.
Proof.
  intros H. cbv zeta. Z.to_euclidean_division_equations. lia.
Qed.

Lemma monthOfYear_bounds doy :
  (0 <= doy <= 365)%Z ->
  let mp := ((5 * doy + 2) / 153)%Z in
  let m := (if mp <? 10 then mp + 3 else mp - 9)%Z in
  (1 <= m <= 12)%Z /\ (if 2 <? m then m - 3 else m + 9)%Z = mp
  /\ (1 <= doy - (153 * mp + 2) / 5 + 1 <= 31)%Z.
Proof.
  intros H. cbv zeta.
  assert (0 <= (5 * doy + 2) / 153 <= 11)%Z as Hmp
      by (Z.to_euclidean_division_equations; lia).
  destruct (Z.ltb_spec ((5 * doy + 2) / 153) 10) as [Hlt | Hge].
  - destruct (Z.ltb_spec 2 ((5 * doy + 2) / 153 + 3)) as [_ | Hc]; [| lia].
    split; [lia |]. split; [lia |]. Z.to_euclidean_division_equations; lia.
  - destruct (Z.ltb_spec 2 ((5 * doy + 2) / 153 - 9)) as [Hc | _]; [lia |].
    split; [lia |]. split; [lia |]. Z.to_euclidean_division_equations; lia.
Qed.

(** Year, month and day of a day number give back the day number. *)
Lemma daysFromCivil_civilFromDays days :
  let '(y, m, d) := Js.civilFromDays days in
  Js.daysFromCivil y m d = days /\ (1 <= m <= 12)%Z /\ (1 <= d <= 31)%Z.
Proof.
  unfold Js.civilFromDays.
  set (z := (days + 719468)%Z).
  set (era := (z / 146097)%Z).
  set (doe := (z - era * 146097)%Z).
  assert (0 <= doe < 146097)%Z as Hdoe
      by (unfold doe, era; Z.to_euclidean_division_equations; lia).
  pose proof (yearOfEra_bounds doe Hdoe) as Hy. cbv zeta in Hy.
  set (yoe := ((doe - doe / 1460 + doe / 36524 - doe / 146096) / 365)%Z) in *.
  set (doy := (doe - (365 * yoe + yoe / 4 - yoe / 100))%Z) in *.
  destruct Hy as [Hyoe Hdoy].
  pose proof (monthOfYear_bounds doy Hdoy) as Hm. cbv zeta in Hm.
  set (mp := ((5 * doy + 2) / 153)%Z) in *.
  set (m := (if mp <? 10 then mp + 3 else mp - 9)%Z) in *.
  destruct Hm as (Hm & Hmp & Hd).
  split; [| split; assumption].
  unfold Js.daysFromCivil. rewrite Hmp.
  assert ((if m <=? 2
           then (if m <=? 2 then yoe + era * 400 + 1 else yoe + era * 400) - 1
           else (if m <=? 2 then yoe + era * 400 + 1 else yoe + era * 400))%Z
          = (yoe + era * 400)%Z) as -> by (destruct (m <=? 2)%Z; lia).
  assert ((yoe + era * 400) / 400 = era)%Z as ->
      by (symmetry; apply (Z.div_unique _ 400 era yoe); lia).
  replace (yoe + era * 400 - era * 400)%Z with yoe by lia.
  unfold doy, doe, z. lia.
Qed.

Transparent Js.Date_UTC.

(** [Date.UTC] of the local year, month and day of a date is midnight
    UTC of its local day, unless the year is one from 0 to 99. *)
Lemma Date_UTC_localDay d :
  twoDigitYear d = false ->
  Js.Date_UTC (getFullYear d) (getMonth d) (getDate d) = (localDay d * msPerDay)%Z.
Proof.
  unfold twoDigitYear, getFullYear, getMonth, getDate, Js.YearFromTime, Js.MonthFromTime,
    Js.DateFromTime, Js.Date_UTC, Js.MakeDay, localDay, Js.Day.
  change Js.msPerDay with msPerDay. fold (LocalTime d).
  pose proof (daysFromCivil_civilFromDays (LocalTime d / msPerDay)) as H.
  destruct (Js.civilFromDays (LocalTime d / msPerDay)) as [[y m] day].
  destruct H as [H _]. intros ->. f_equal.
  replace (m - 1 + 1)%Z with m by lia.
  rewrite <- H. unfold Js.daysFromCivil. lia.
Qed.

(** X4.  [dateDiffInDays] does not depend on the order of its arguments
    and is never negative.  For two dates whose local years are not among
    the years 0 to 99, which [Date.UTC] reads as 1900 to 1999, it is the
    distance between their local calendar days, whatever the times of
    day. *)
Theorem dateDiffInDays_local_day_distance (date1 date2 : Date) :
  dateDiffInDays date1 date2 = dateDiffInDays date2 date1
  /\ (0 <= dateDiffInDays date1 date2)%Z
  /\ (twoDigitYear date1 = false -> twoDigitYear date2 = false ->
      dateDiffInDays date1 date2 = Z.abs (localDay date2 - localDay date1)).
Proof.
  split; [| split].
  - unfold dateDiffInDays.
    set (utc1 := Js.Date_UTC (getFullYear date1) (getMonth date1) (getDate date1)).
    set (utc2 := Js.Date_UTC (getFullYear date2) (getMonth date2) (getDate date2)).
    assert (exists n1 n2, utc1 = (n1 * msPerDay)%Z /\ utc2 = (n2 * msPerDay)%Z)
      as (n1 & n2 & -> & ->) by (unfold utc1, utc2, Js.Date_UTC; eauto).
    rewrite <- !Z.mul_sub_distr_r, !Z.div_mul by discriminate. lia.
  - unfold dateDiffInDays. apply Z.abs_nonneg.
  - intros H1 H2. unfold dateDiffInDays.
    rewrite (Date_UTC_localDay date1 H1), (Date_UTC_localDay date2 H2).
    rewrite <- Z.mul_sub_distr_r, Z.div_mul; [reflexivity | discriminate].
Qed.

Opaque Js.Date_UTC.

(** The sign of a sum. *)
Lemma binary_round_sign s m e :
  let r := binary_round prec emax s m e in
  r = S754_zero s \/ r = S754_infinity s \/ exists m' e', r = S754_finite s m' e'.
Proof.
  unfold binary_round.
  destruct (shl_align m e _) as [mz ez].
  apply binary_round_aux_sign. lia.
Qed.

Lemma SF_notNegative_cases x :
  SFleb (S754_zero false) x = true ->
  (exists s, x = S754_zero s) \/ x = S754_infinity false
  \/ exists m e, x = S754_finite false m e.
Proof.
  destruct x as [s | s | | s m e]; unfold SFleb; simpl; try discriminate; eauto;
    destruct s; try discriminate; eauto.
Qed.

Lemma add_notNegative x y : notNegative x -> notNegative y -> notNegative (x + y).
Proof.
  unfold notNegative.
  rewrite !FloatAxioms.leb_spec, FloatAxioms.add_spec.
  change (Prim2SF 0) with (S754_zero false).
  intros Hx Hy.
  destruct (SF_notNegative_cases _ Hx) as [[sx ->] | [-> | (mx & ex & ->)]];
    destruct (SF_notNegative_cases _ Hy) as [[sy ->] | [-> | (my & ey & ->)]];
    try reflexivity; try (destruct sx; reflexivity); try (destruct sy; reflexivity);
    try (destruct sx, sy; reflexivity).
  unfold SF64add, SFadd, cond_Zopp, binary_normalize.
  match goal with
  | |- context [(Zpos ?a + Zpos ?b)%Z] => change (Zpos a + Zpos b)%Z with (Zpos (a + b))
  end.
  cbv iota beta.
  match goal with
  | |- context [binary_round ?p ?em ?s ?m ?e] =>
      destruct (binary_round_sign s m e) as [-> | [-> | (m' & e' & ->)]]; reflexivity
  end.
Qed.

Lemma abs_notNegative x : (x <? 0) = true -> notNegative (abs x).
Proof.
  unfold notNegative.
  rewrite FloatAxioms.ltb_spec, FloatAxioms.leb_spec, abs_spec.
  change (Prim2SF 0) with (S754_zero false).
  destruct (Prim2SF x) as [s | s | | s m e]; unfold SFltb, SFleb; simpl; try discriminate;
    try reflexivity; destruct s; try discriminate; reflexivity.
Qed.

Lemma fold_sum_notNegative (term : CashFlow -> float) (l : list CashFlow) :
  Forall (fun f => notNegative (term f)) l ->
  forall start, notNegative start ->
  notNegative (fold_left (fun sum flow => sum + term flow) l start).
Proof.
  induction 1 as [| f l Hf _ IH]; intros start Hs; [exact Hs |].
  cbn [fold_left]. apply IH, add_notNegative; assumption.
Qed.

(** X5.  In every result of [calculateXIRR], [totalInflows] and
    [totalOutflows] are numbers that are zero or positive (possibly
    infinite, never NaN and never negative). *)
Theorem totals_not_negative (cashFlows : list CashFlow) (res : XIRRResult) :
  calculateXIRR cashFlows = Some res ->
  notNegative (totalInflows res) /\ notNegative (totalOutflows res).
Proof.
  unfold calculateXIRR.
  destruct (List.length cashFlows <? 2)%nat; [discriminate |].
  destruct (sortByTime cashFlows) as [| first rest]; [discriminate |].
  remember (first :: rest) as sorted eqn:Hs. clear Hs.
  destruct ((amount (last sorted first) <? 0) && (sumAmounts sorted <? 0));
    [discriminate |].
  intros [= <-]. cbn [totalInflows totalOutflows]. split.
  - unfold sumAmounts. apply fold_sum_notNegative; [| reflexivity].
    apply Forall_forall. intros f Hf. apply filter_In in Hf. destruct Hf as [_ Hpos].
    apply ltb_leb. exact Hpos.
  - apply (fold_sum_notNegative (fun f => abs (amount f))); [| reflexivity].
    apply Forall_forall. intros f Hf. apply filter_In in Hf. destruct Hf as [_ Hneg].
    apply abs_notNegative. exact Hneg.
Qed.

End SortAndTotals.

(** X4 at the first days of 2020 and 2024. *)
Lemma dateDiffInDays_local_day_distance_witness :
  let date1 := Ref.newDate "2020-01-01" in
  let date2 := Ref.newDate "2024-01-01" in
  Spec.twoDigitYear (rt := Ref.xirrRuntime) date1 = false
  /\ Spec.twoDigitYear (rt := Ref.xirrRuntime) date2 = false
  /\ Xirr.dateDiffInDays (rt := Ref.xirrRuntime) date1 date2
     = Z.abs (Spec.localDay (rt := Ref.xirrRuntime) date2
              - Spec.localDay (rt := Ref.xirrRuntime) date1).
Proof.
  cbv zeta.
  assert (Spec.twoDigitYear (rt := Ref.xirrRuntime) (Ref.newDate "2020-01-01") = false)
    as H1 by (vm_compute; reflexivity).
  assert (Spec.twoDigitYear (rt := Ref.xirrRuntime) (Ref.newDate "2024-01-01") = false)
    as H2 by (vm_compute; reflexivity).
  split; [exact H1 |]. split; [exact H2 |].
  exact (proj2 (proj2 (@dateDiffInDays_local_day_distance Ref.xirrRuntime
                         (Ref.newDate "2020-01-01") (Ref.newDate "2024-01-01"))) H1 H2).
Defined.

(** A year from 0 to 99: from the last day of the year 99 to the first
    day of the year 100 the source counts the days from 1999-12-31 back to
    0100-01-01. *)
Example dateDiffInDays_two_digit_year :
  Xirr.dateDiffInDays (rt := Ref.xirrRuntime)
    (Ref.newDate "0099-12-31") (Ref.newDate "0100-01-01") = 693959%Z
  /\ (Spec.localDay (rt := Ref.xirrRuntime) (Ref.newDate "0100-01-01")
      - Spec.localDay (rt := Ref.xirrRuntime) (Ref.newDate "0099-12-31") = 1)%Z.
Proof. split; vm_compute; reflexivity. Qed.

(** X5 at a doubling over four years. *)
Lemma totals_not_negative_witness :
  Xirr.calculateXIRR (rt := Ref.xirrRuntime) Spec.doubling = Some Spec.doublingResult
  /\ Spec.notNegative (Xirr.totalInflows Spec.doublingResult)
  /\ Spec.notNegative (Xirr.totalOutflows Spec.doublingResult).
Proof.
  assert (Xirr.calculateXIRR (rt := Ref.xirrRuntime) Spec.doubling
          = Some Spec.doublingResult) as E by (vm_compute; reflexivity).
  split; [exact E |].
  exact (@totals_not_negative Ref.xirrRuntime Spec.doubling Spec.doublingResult E).
Defined.

(** ** filterCashFlowsByPeriod *)

Section PeriodFilter.
Import Xirr Spec.
Context {cal : Calendar}.

Lemma length_zero_nil {A} (l : list A) : (List.length l =? 0)%nat = true <-> l = [].
Proof. destruct l; simpl; split; congruence. Qed.

Lemma existsb_filter_length {A} (p : A -> bool) (l : list A) :
  (0 <? List.length (filter p l))%nat = existsb p l.
Proof.
  induction l as [| x l IH]; [reflexivity |].
  cbn [filter existsb]. destruct (p x); [reflexivity | exact IH].
Qed.

(** The function by cases on the sorted flows of the period. *)
Lemma filterCashFlowsByPeriod_cases cashFlows endDate years :
  let startDate := yearsBefore endDate years in
  filterCashFlowsByPeriod cashFlows endDate years
  = match periodFlows cashFlows startDate endDate with
    | [] => []
    | first :: rest =>
        if existsb (beforePeriod startDate) cashFlows
           && negb (balanceBefore cashFlows startDate =? 0)
        then mkCashFlow (date first) (balanceBefore cashFlows startDate)
               (Some "Opening Balance"%string) :: first :: rest
        else first :: rest
    end.
Proof.
  cbv zeta. unfold filterCashFlowsByPeriod, periodFlows, balanceBefore, sumAmounts.
  change (fun cf : CashFlow =>
            (getTime (yearsBefore endDate years) <=? getTime (date cf))%Z
            && (getTime (date cf) <=? getTime endDate)%Z)
    with (inPeriod (yearsBefore endDate years) endDate).
  change (fun cf : CashFlow => (getTime (date cf) <? getTime (yearsBefore endDate years))%Z)
    with (beforePeriod (yearsBefore endDate years)).
  rewrite existsb_filter_length.
  destruct (List.length (filter (inPeriod (yearsBefore endDate years) endDate) cashFlows)
            =? 0)%nat eqn:El.
  - apply length_zero_nil in El. rewrite El. reflexivity.
  - destruct (sortByTime _) as [| first rest]; [reflexivity |].
    destruct (existsb _ cashFlows); [| reflexivity].
    destruct (negb _); reflexivity.
Qed.

(** X6.  The result of [filterCashFlowsByPeriod] is in chronological
    order, the opening balance included. *)
Theorem filterCashFlowsByPeriod_sorted (cashFlows : list CashFlow) (endDate : Date)
    (years : Z) :
  StronglySorted byTime (filterCashFlowsByPeriod cashFlows endDate years).
Proof.
  rewrite filterCashFlowsByPeriod_cases. cbv zeta.
  pose proof (SortFacts.sortByTime_sorted
                (filter (inPeriod (yearsBefore endDate years) endDate) cashFlows)) as Hs.
  fold (periodFlows cashFlows (yearsBefore endDate years) endDate) in Hs.
  destruct (periodFlows cashFlows (yearsBefore endDate years) endDate) as [| first rest];
    [constructor |].
  destruct (existsb _ cashFlows && negb _); [| exact Hs].
  constructor; [exact Hs |].
  apply Forall_forall. intros g Hg.
  pose proof (SortFacts.sorted_head_least first rest Hs g Hg) as Hle.
  unfold byTime, timeOf in *. exact Hle.
Qed.

(** X7.  [filterCashFlowsByPeriod] returns nothing exactly when no flow is
    dated within the period, boundaries included, whatever the flows before
    it: their balance alone is never returned. *)
Theorem filterCashFlowsByPeriod_empty (cashFlows : list CashFlow) (endDate : Date)
    (years : Z) :
  filterCashFlowsByPeriod cashFlows endDate years = []
  <-> forall f, In f cashFlows -> inPeriod (yearsBefore endDate years) endDate f = false.
Proof.
  rewrite filterCashFlowsByPeriod_cases. cbv zeta. unfold periodFlows.
  pose proof (SortFacts.sortByTime_perm
                (filter (inPeriod (yearsBefore endDate years) endDate) cashFlows)) as Hp.
  split.
  - intros H f Hf.
    destruct (inPeriod (yearsBefore endDate years) endDate f) eqn:Ein; [| reflexivity].
    assert (In f (sortByTime
                    (filter (inPeriod (yearsBefore endDate years) endDate) cashFlows)))
      as Hin.
    { eapply Permutation_in; [apply Permutation_sym; exact Hp |].
      apply filter_In. auto. }
    destruct (sortByTime _) as [| first rest]; [destruct Hin |].
    destruct (existsb _ cashFlows && negb _); discriminate H.
  - intros H.
    assert (filter (inPeriod (yearsBefore endDate years) endDate) cashFlows = []) as E.
    { destruct (filter _ cashFlows) as [| f l] eqn:Ef; [reflexivity |].
      assert (In f (filter (inPeriod (yearsBefore endDate years) endDate) cashFlows))
        as Hin by (rewrite Ef; left; reflexivity).
      apply filter_In in Hin. destruct Hin as [Hin Hp'].
      rewrite (H f Hin) in Hp'. discriminate Hp'. }
    rewrite E. reflexivity.
Qed.

(** X8.  The result of [filterCashFlowsByPeriod] is the flows dated
    within the period, each once, in chronological order, preceded by one
    opening balance exactly when the period has a flow, some flow is dated
    before the period and the sum of the flows before it is not zero; the
    opening balance is that sum, dated at the first flow of the period. *)
Theorem filterCashFlowsByPeriod_contents (cashFlows : list CashFlow) (endDate : Date)
    (years : Z) :
  let startDate := yearsBefore endDate years in
  let result := filterCashFlowsByPeriod cashFlows endDate years in
  let inside := periodFlows cashFlows startDate endDate in
  Permutation inside (filter (inPeriod startDate endDate) cashFlows)
  /\ StronglySorted byTime inside
  /\ match inside with
     | [] => result = []
     | first :: _ =>
         if existsb (beforePeriod startDate) cashFlows
            && negb (balanceBefore cashFlows startDate =? 0)
         then result
              = mkCashFlow (date first) (balanceBefore cashFlows startDate)
                  (Some "Opening Balance"%string) :: inside
         else result = inside
     end.
Proof.
  cbv zeta. split; [apply SortFacts.sortByTime_perm |].
  split; [apply SortFacts.sortByTime_sorted |].
  rewrite filterCashFlowsByPeriod_cases. cbv zeta.
  destruct (periodFlows cashFlows (yearsBefore endDate years) endDate) as [| first rest];
    [reflexivity |].
  destruct (existsb _ cashFlows && negb _); reflexivity.
Qed.

Lemma filter_filter_implied {A} (p q : A -> bool) (l : list A) :
  (forall x, p x = true -> q x = true) ->
  filter p (filter q l) = filter p l.
Proof.
  intros H. induction l as [| x l IH]; [reflexivity |].
  cbn [filter]. destruct (q x) eqn:Eq.
  - cbn [filter]. rewrite IH. reflexivity.
  - destruct (p x) eqn:Ep; [| exact IH].
    rewrite (H x Ep) in Eq. discriminate Eq.
Qed.

Lemma existsb_filter_implied {A} (p q : A -> bool) (l : list A) :
  (forall x, p x = true -> q x = true) ->
  existsb p (filter q l) = existsb p l.
Proof.
  intros H. rewrite <- !existsb_filter_length, filter_filter_implied by exact H.
  reflexivity.
Qed.

(** X9.  When the start of the period is not after its end, the flows
    dated after the end date play no part: dropping them from the input
    does not change the result of [filterCashFlowsByPeriod]. *)
Theorem filterCashFlowsByPeriod_ignores_later_flows (cashFlows : list CashFlow)
    (endDate : Date) (years : Z) :
  (getTime (yearsBefore endDate years) <= getTime endDate)%Z ->
  filterCashFlowsByPeriod
    (filter (fun f => (timeOf f <=? getTime endDate)%Z) cashFlows) endDate years
  = filterCashFlowsByPeriod cashFlows endDate years.
Proof.
  intros Hle. rewrite !filterCashFlowsByPeriod_cases. cbv zeta.
  unfold periodFlows, balanceBefore.
  rewrite (filter_filter_implied (inPeriod (yearsBefore endDate years) endDate)).
  2: { intros f Hf. unfold inPeriod in Hf. apply andb_true_iff in Hf. apply Hf. }
  rewrite (filter_filter_implied (beforePeriod (yearsBefore endDate years))).
  2: { intros f Hf. unfold beforePeriod in Hf. apply Z.ltb_lt in Hf. apply Z.leb_le. lia. }
  rewrite (existsb_filter_implied (beforePeriod (yearsBefore endDate years))).
  2: { intros f Hf. unfold beforePeriod in Hf. apply Z.ltb_lt in Hf. apply Z.leb_le. lia. }
  reflexivity.
Qed.

End PeriodFilter.

(** X9 at a ledger with a flow a month after the end date. *)
Lemma filterCashFlowsByPeriod_ignores_later_flows_witness :
  Xirr.filterCashFlowsByPeriod (cal := Ref.calendar)
    (filter (fun f => (Spec.timeOf f <=? Xirr.getTime (Ref.newDate "2024-01-01"))%Z)
       Spec.ledger)
    (Ref.newDate "2024-01-01") 1
  = Xirr.filterCashFlowsByPeriod (cal := Ref.calendar) Spec.ledger
      (Ref.newDate "2024-01-01") 1.
Proof.
  apply (@filterCashFlowsByPeriod_ignores_later_flows Ref.calendar Spec.ledger
           (Ref.newDate "2024-01-01") 1).
  vm_compute. discriminate.
Defined.

(** ** parseCSV *)

Section CsvText.
Import Xirr Spec.
Context {tx : Text}.

Lemma split_not_nil sep s : Js.split sep s <> [].
Proof.
  destruct s as [| c s]; simpl; [discriminate |].
  destruct (Ascii.eqb c sep); [discriminate |].
  destruct (Js.split sep s); discriminate.
Qed.

Lemma nth_nth_error {A} (l : list A) n d x : nth_error l n = Some x -> nth n l d = x.
Proof.
  revert l. induction n as [| n IH]; intros [| y l]; simpl; try discriminate.
  - intros [= ->]. reflexivity.
  - apply IH.
Qed.

(** One turn of the loop of [parseCSV] adds the flow of its line. *)
Lemma parseLines_flowsOfLine lines :
  forall cashFlows,
    parseLines lines cashFlows = cashFlows ++ flat_map flowsOfLine lines.
Proof.
  induction lines as [| l rest IH]; intros cashFlows.
  - simpl. rewrite app_nil_r. reflexivity.
  - cbn [parseLines flat_map]. unfold flowsOfLine at 1, flowOfLine, csvField.
    destruct (String.eqb (Js.trim l) "") eqn:Eblank.
    + apply String.eqb_eq in Eblank. rewrite Eblank. simpl. apply IH.
    + pose proof (split_not_nil "," (Js.trim l)) as Hne.
      destruct (Js.split "," (Js.trim l)) as [| p0 [| p1 parts]] eqn:Es;
        [congruence | simpl; apply IH |].
      cbn [List.length Nat.ltb Nat.leb nth nth_error option_map].
      destruct (Date_parse (Js.trim p0)) as [d |]; [| simpl; apply IH].
      destruct (Js.isNaN (parseFloat (Js.trim p1))); cbn [negb]; [simpl; apply IH |].
      rewrite IH, <- app_assoc.
      destruct parts as [| p2 parts]; reflexivity.
Qed.

(** X10.  [parseCSV] reads a text line by line: the first line of the
    trimmed text is passed over, and every later line contributes, in
    order and whatever the other lines, the one flow it denotes (a valid
    date in its first field, a number in its second) or nothing; so there
    are never more flows than lines after the first. *)
Theorem parseCSV_line_by_line (csvText : string) :
  parseCSV csvText = flat_map flowsOfLine (tl (csvLines csvText))
  /\ (List.length (parseCSV csvText) <= List.length (csvLines csvText) - 1)%nat.
Proof.
  assert (parseCSV csvText = flat_map flowsOfLine (tl (csvLines csvText))) as E.
  { unfold parseCSV, csvLines. rewrite parseLines_flowsOfLine.
    destruct (Js.split _ _); reflexivity. }
  split; [exact E |]. rewrite E.
  assert (forall lines, List.length (flat_map flowsOfLine lines) <= List.length lines)%nat
    as Hle.
  { induction lines as [| l lines IH]; [simpl; lia |].
    cbn [flat_map List.length]. rewrite length_app.
    unfold flowsOfLine at 1. destruct (flowOfLine l); simpl; lia. }
  destruct (csvLines csvText) as [| header lines]; [simpl; lia |].
  specialize (Hle lines). cbn [tl List.length]. lia.
Qed.

(** X11.  Every flow [parseCSV] returns has a number for amount (never
    NaN) and carries a description, the empty one when the line has no
    third field. *)
Theorem parseCSV_amounts_are_numbers (csvText : string) (f : CashFlow) :
  In f (parseCSV csvText) ->
  Js.isNaN (amount f) = false
  /\ exists line,
       In line (tl (csvLines csvText))
       /\ description f
          = Some (match csvField line 2 with Some s => s | None => ""%string end).
Proof.
  unfold parseCSV. fold (csvLines csvText). rewrite parseLines_flowsOfLine.
  replace (skipn 1 (csvLines csvText)) with (tl (csvLines csvText))
    by (destruct (csvLines csvText); reflexivity).
  cbn [app]. intros Hin. apply in_flat_map in Hin. destruct Hin as [line [Hline Hf]].
  unfold flowsOfLine, flowOfLine in Hf.
  destruct (csvField line 0) as [dateStr |]; [| destruct Hf].
  destruct (csvField line 1) as [amountStr |]; [| destruct Hf].
  destruct (Date_parse dateStr) as [d |]; [| destruct Hf].
  destruct (Js.isNaN (parseFloat amountStr)) eqn:En; [destruct Hf |].
  destruct Hf as [<- | []]. split; [exact En |].
  exists line. split; [exact Hline | reflexivity].
Qed.

End CsvText.

(** X11 at the sample text. *)
Lemma parseCSV_amounts_are_numbers_witness :
  In (Xirr.mkCashFlow (Ref.newDate "2024-12-31") 115000 (Some ""%string))
    (Xirr.parseCSV (tx := Ref.text) Spec.sampleCsv)
  /\ Js.isNaN 115000 = false.
Proof.
  assert (In (Xirr.mkCashFlow (Ref.newDate "2024-12-31") 115000 (Some ""%string))
            (Xirr.parseCSV (tx := Ref.text) Spec.sampleCsv)) as Hin.
  { vm_compute. right. right. left. reflexivity. }
  split; [exact Hin |].
  exact (proj1 (@parseCSV_amounts_are_numbers Ref.text Spec.sampleCsv _ Hin)).
Defined.

(** ** The simple mode of the form: calculateIRR, removeFlow *)

Section SimpleMode.
Import Xirr Spec.
Context {rt : Runtime} {ps : App.Parsing}.

Lemma existsb_false_forall {A} (p : A -> bool) (l : list A) :
  existsb p l = false -> forall x, In x l -> p x = false.
Proof.
  intros H x Hx. destruct (p x) eqn:E; [| reflexivity].
  assert (existsb p l = true) as Ht by (apply existsb_exists; eauto).
  congruence.
Qed.

(** X12.  [calculateIRR] ends with a result or with an error message,
    never both and never neither.  The result is that of [calculateXIRR]
    on the entries that have a date and an amount, and it is there exactly
    when these are at least two, one of them negative, one positive, and
    the sequence is not degenerate (last flow negative and net sum
    negative). *)
Theorem calculateIRR_outcome (flows : list App.FlowInput) :
  let entered := enteredFlows flows in
  let outcome := App.calculateIRR flows in
  match App.result outcome with
  | Some r =>
      App.error outcome = ""%string
      /\ calculateXIRR entered = Some r
      /\ (2 <= List.length entered)%nat
      /\ (exists f, In f entered /\ (amount f <? 0) = true)
      /\ (exists g, In g entered /\ (0 <? amount g) = true)
  | None =>
      Js.truthy (App.error outcome) = true
      /\ ((List.length entered < 2)%nat
          \/ (forall f, In f entered -> (amount f <? 0) = false)
          \/ (forall g, In g entered -> (0 <? amount g) = false)
          \/ degenerate entered = true)
  end.
Proof.
  cbv zeta. unfold App.calculateIRR.
  change (map _ (filter _ flows)) with (enteredFlows flows).
  destruct (Nat.ltb_spec (List.length (enteredFlows flows)) 2) as [Hlt | Hge].
  { cbn [App.result App.error]. split; [reflexivity | left; exact Hlt]. }
  destruct (existsb (fun f => amount f <? 0) (enteredFlows flows)) eqn:Eout.
  2: { cbn [negb orb App.result App.error]. split; [reflexivity |].
       right. left. apply (existsb_false_forall _ _ Eout). }
  destruct (existsb (fun f => Js.gtb (amount f) 0) (enteredFlows flows)) eqn:Ein.
  2: { cbn [negb orb App.result App.error]. split; [reflexivity |].
       right. right. left. apply (existsb_false_forall _ _ Ein). }
  cbn [negb orb].
  destruct (calculateXIRR (enteredFlows flows)) as [r |] eqn:Ex;
    cbn [App.result App.error].
  - split; [reflexivity |]. split; [reflexivity |]. split; [exact Hge |].
    apply existsb_exists in Eout. apply existsb_exists in Ein. split; assumption.
  - split; [reflexivity |]. right. right. right.
    destruct (degenerate (enteredFlows flows)) eqn:Ed; [reflexivity |].
    destruct (SolverFacts.calculateXIRR_accepts _ Hge Ed) as [res Hres]. congruence.
Qed.

End SimpleMode.

Section Removal.

Lemma filter_idempotent {A} (p : A -> bool) (l : list A) :
  filter p (filter p l) = filter p l.
Proof.
  induction l as [| x l IH]; [reflexivity |].
  cbn [filter]. destruct (p x) eqn:E; [| exact IH].
  cbn [filter]. rewrite E, IH. reflexivity.
Qed.

(** Dropping the entries of one key from a list of distinct keys drops
    at most one entry. *)
Lemma filter_other_keys_length {A} (key : A -> string) (k : string) (l : list A) :
  NoDup (map key l) ->
  (List.length l <= S (List.length (filter (fun x => negb (String.eqb (key x) k)) l)))%nat.
Proof.
  induction l as [| x l IH]; [simpl; lia |].
  cbn [map filter]. intros Hnd. inversion Hnd as [| ? ? Hx Hl]; subst.
  destruct (String.eqb (key x) k) eqn:E; cbn [negb List.length].
  - apply String.eqb_eq in E.
    assert (filter (fun y => negb (String.eqb (key y) k)) l = l) as ->; [| lia].
    clear IH Hnd Hl. induction l as [| y l IH]; [reflexivity |].
    cbn [filter]. destruct (String.eqb (key y) k) eqn:Ey.
    + apply String.eqb_eq in Ey. exfalso. apply Hx. left. congruence.
    + cbn [negb]. f_equal. apply IH. intros Hin. apply Hx. right. exact Hin.
  - specialize (IH Hl). lia.
Qed.

(** X13.  [removeFlow] of the simple mode never leaves fewer than two
    entries when the ids are distinct; the entries of other ids stay, in
    order, and from three entries on none of the removed id is left. *)
Theorem removeFlow_keeps_two_entries (id' : string) (flows : list App.FlowInput) :
  NoDup (map App.id flows) ->
  (2 <= List.length flows)%nat ->
  (2 <= List.length (App.removeFlow id' flows))%nat
  /\ filter (fun f => negb (String.eqb (App.id f) id')) (App.removeFlow id' flows)
     = filter (fun f => negb (String.eqb (App.id f) id')) flows
  /\ ((3 <= List.length flows)%nat ->
      forall f, In f (App.removeFlow id' flows) -> App.id f <> id').
Proof.
  intros Hnd Hlen. unfold App.removeFlow.
  destruct (Nat.ltb_spec 2 (List.length flows)) as [H3 | H2].
  - pose proof (filter_other_keys_length App.id id' flows Hnd) as Hle.
    split; [lia |]. split; [apply filter_idempotent |].
    intros _ f Hin. apply filter_In in Hin. destruct Hin as [_ Hne].
    apply negb_true_iff, String.eqb_neq in Hne. exact Hne.
  - split; [exact Hlen |]. split; [reflexivity |]. lia.
Qed.

(** X14.  [removePeriod] never removes the last period when the ids are
    distinct, and it leaves the periods of other ids in place. *)
Theorem removePeriod_keeps_one_period (id' : string)
    (periodValues : Interfaces.PeriodValues) :
  NoDup (map Interfaces.id (Interfaces.periods periodValues)) ->
  (1 <= List.length (Interfaces.periods periodValues))%nat ->
  (1 <= List.length
          (Interfaces.periods (MultiPeriodInput.removePeriod id' periodValues)))%nat
  /\ forall p, In p (Interfaces.periods periodValues) -> Interfaces.id p <> id' ->
               In p (Interfaces.periods (MultiPeriodInput.removePeriod id' periodValues)).
Proof.
  intros Hnd Hlen. unfold MultiPeriodInput.removePeriod.
  destruct (Nat.ltb_spec 1 (List.length (Interfaces.periods periodValues))) as [H2 | H1].
  - cbn [Interfaces.periods].
    pose proof (filter_other_keys_length Interfaces.id id' _ Hnd) as Hle.
    split; [lia |]. intros p Hin Hne. apply filter_In. split; [exact Hin |].
    apply negb_true_iff, String.eqb_neq. exact Hne.
  - split; [exact Hlen |]. intros p Hin _. exact Hin.
Qed.

End Removal.

(** X13 at a form of three entries. *)
Lemma removeFlow_keeps_two_entries_witness :
  NoDup (map App.id Spec.sampleForm)
  /\ (2 <= List.length Spec.sampleForm)%nat
  /\ (2 <= List.length (App.removeFlow "2" Spec.sampleForm))%nat.
Proof.
  assert (NoDup (map App.id Spec.sampleForm)) as Hnd.
  { repeat constructor; simpl; intuition discriminate. }
  assert (2 <= List.length Spec.sampleForm)%nat as Hlen by (simpl; lia).
  split; [exact Hnd |]. split; [exact Hlen |].
  exact (proj1 (removeFlow_keeps_two_entries "2" Spec.sampleForm Hnd Hlen)).
Defined.

(** X14 at a single period. *)
Lemma removePeriod_keeps_one_period_witness :
  NoDup (map Interfaces.id [Spec.samplePeriod])
  /\ (1 <= List.length [Spec.samplePeriod])%nat
  /\ (1 <= List.length
            (Interfaces.periods
               (MultiPeriodInput.removePeriod "1"
                  (Interfaces.mkPeriodValues [Spec.samplePeriod]))))%nat.
Proof.
  assert (NoDup (map Interfaces.id [Spec.samplePeriod])) as Hnd.
  { repeat constructor; simpl; intuition discriminate. }
  assert (1 <= List.length [Spec.samplePeriod])%nat as Hlen by (simpl; lia).
  split; [exact Hnd |]. split; [exact Hlen |].
  exact (proj1 (removePeriod_keeps_one_period "1"
                  (Interfaces.mkPeriodValues [Spec.samplePeriod]) Hnd Hlen)).
Defined.

(** ** The saved datasets *)

Section Datasets.
Import Interfaces DatasetManager.

Lemma find_filter_other (k k' : string) (datasets : list Dataset) :
  k' <> k ->
  find (fun d => String.eqb (id d) k')
    (filter (fun d => negb (String.eqb (id d) k)) datasets)
  = find (fun d => String.eqb (id d) k') datasets.
Proof.
  intros Hne. induction datasets as [| d l IH]; [reflexivity |].
  cbn [filter find]. destruct (String.eqb (id d) k) eqn:E; cbn [negb].
  - apply String.eqb_eq in E.
    assert (String.eqb (id d) k' = false) as -> by (apply String.eqb_neq; congruence).
    exact IH.
  - cbn [find]. destruct (String.eqb (id d) k'); [reflexivity | exact IH].
Qed.

(** X15.  A dataset saved under a name that is not blank is loaded back
    by its id: the entries that had a date and an amount, in order, with
    the period values when saved in multi-period mode.  Saving never
    changes what any other id loads. *)
Theorem handleSave_then_handleLoad (now createdAt updatedAt saveName saveDescription : string)
    (currentFlows : list CashFlowData) (periodValues : option PeriodValues)
    (isMultiPeriod : bool) (stored : Storage) :
  let stored' :=
    handleSave now createdAt updatedAt saveName saveDescription currentFlows
      periodValues isMultiPeriod stored in
  (Js.truthy (Js.trim saveName) = true ->
   handleLoad now stored'
   = inl (filter (fun f => Js.truthy (date f) && Js.truthy (amount f)) currentFlows,
          if isMultiPeriod then periodValues else None))
  /\ (Js.truthy (Js.trim saveName) = false -> stored' = stored)
  /\ (forall other, other <> now -> handleLoad other stored' = handleLoad other stored).
Proof.
  cbv zeta. unfold handleSave.
  destruct (Js.truthy (Js.trim saveName)); cbn [negb].
  - split.
    + intros _. unfold handleLoad. cbn [find id]. rewrite String.eqb_refl. reflexivity.
    + split; [discriminate |]. intros other Hne. unfold handleLoad. cbn [find id].
      assert (String.eqb now other = false) as ->
          by (apply String.eqb_neq; congruence).
      destruct stored as [datasets |]; reflexivity.
  - split; [discriminate |]. split; reflexivity.
Qed.

(** X16.  After a confirmed [handleDelete] the id loads nothing
    ("Failed to load dataset"), every other id loads what it did before,
    and without the confirmation the storage is untouched. *)
Theorem handleDelete_then_handleLoad (datasetId : string) (stored : Storage) :
  handleLoad datasetId (handleDelete true datasetId stored)
  = inr "Failed to load dataset"%string
  /\ (forall other, other <> datasetId ->
        handleLoad other (handleDelete true datasetId stored) = handleLoad other stored)
  /\ handleDelete false datasetId stored = stored.
Proof.
  unfold handleDelete, handleLoad. cbn [negb].
  destruct stored as [datasets |]; [| repeat split].
  split; [| split; [| reflexivity]].
  - assert (find (fun d => String.eqb (id d) datasetId)
              (filter (fun d => negb (String.eqb (id d) datasetId)) datasets) = None) as ->;
      [| reflexivity].
    induction datasets as [| d l IH]; [reflexivity |].
    cbn [filter]. destruct (String.eqb (id d) datasetId) eqn:E; cbn [negb]; [exact IH |].
    cbn [find]. rewrite E. exact IH.
  - intros other Hne. rewrite (find_filter_other datasetId other datasets Hne). reflexivity.
Qed.

End Datasets.

(** X15 at an empty storage. *)
Lemma handleSave_then_handleLoad_witness :
  Js.truthy (Js.trim " My portfolio ") = true
  /\ DatasetManager.handleLoad "1700000000000"
       (DatasetManager.handleSave "1700000000000" "2023-11-14T22:13:20.000Z"
          "2023-11-14T22:13:20.000Z" " My portfolio " "" (App.currentFlows Spec.sampleForm)
          None false None)
     = inl (filter (fun f => Js.truthy (Interfaces.date f) && Js.truthy (Interfaces.amount f))
              (App.currentFlows Spec.sampleForm),
            None).
Proof.
  assert (Js.truthy (Js.trim " My portfolio ") = true) as Hn by reflexivity.
  split; [exact Hn |].
  exact (proj1 (handleSave_then_handleLoad "1700000000000" "2023-11-14T22:13:20.000Z"
                  "2023-11-14T22:13:20.000Z" " My portfolio " ""
                  (App.currentFlows Spec.sampleForm) None false None) Hn).
Defined.

(** ** Loading saved flows into the form *)

Section LoadDataset.
Import Xirr Spec.
Context {rt : Runtime} {ps : App.Parsing}.





End LoadDataset.


(** ** The multi-period form *)

Section SortedInput.
Import Xirr Spec.

(** Sorting a sorted list changes nothing. *)
Lemma sortByTime_sorted_id l : StronglySorted byTime l -> sortByTime l = l.
Proof.
  induction 1 as [| x l Hl IH Hx]; [reflexivity |].
  cbn [sortByTime fold_right]. fold (sortByTime l). rewrite IH.
  destruct l as [| y l']; [reflexivity |].
  cbn [insertByTime]. inversion Hx as [| ? ? Hxy _]; subst.
  unfold byTime, timeOf in Hxy. apply Z.leb_le in Hxy. rewrite Hxy. reflexivity.
Qed.

Lemma insertByTime_before_last x s e :
  byTime x e -> insertByTime x (s ++ [e]) = insertByTime x s ++ [e].
Proof.
  intros Hxe. induction s as [| y s IH].
  - cbn [app insertByTime]. unfold byTime, timeOf in Hxe. apply Z.leb_le in Hxe.
    rewrite Hxe. reflexivity.
  - cbn [app insertByTime]. destruct (getTime (date x) <=? getTime (date y))%Z;
      [reflexivity |]. rewrite IH. reflexivity.
Qed.

(** A flow put last that is not dated before the others stays last. *)
Lemma sortByTime_last_stays l e :
  (forall x, In x l -> byTime x e) -> sortByTime (l ++ [e]) = sortByTime l ++ [e].
Proof.
  induction l as [| x l IH]; intros Hall; [reflexivity |].
  cbn [app sortByTime fold_right]. fold (sortByTime (l ++ [e])). fold (sortByTime l).
  rewrite IH by (intros y Hy; apply Hall; right; exact Hy).
  apply insertByTime_before_last, Hall. left. reflexivity.
Qed.

End SortedInput.

Section MultiPeriodForm.
Import Xirr Spec.
Context {rt : Runtime} {ps : App.Parsing} {tx : Text}.

Lemma buildPeriodCashFlows_filledIn pool p :
  filledIn p = true ->
  App.buildPeriodCashFlows pool (Interfaces.startDate p) (Interfaces.endDate p)
    (Interfaces.startValue p) (Interfaces.endValue p)
  = sortByTime
      (windowStart (Interfaces.startDate p) (Interfaces.startValue p)
       :: intermediates pool (App.newDate (Interfaces.startDate p))
            (App.newDate (Interfaces.endDate p))
       ++ [windowEnd (Interfaces.endDate p) (Interfaces.endValue p)]).
Proof.
  unfold filledIn. rewrite !andb_true_iff. intros [[[Hsd Hed] Hsv] Hev].
  apply buildPeriodCashFlows_present; assumption.
Qed.

Lemma buildPeriodCashFlows_not_filledIn pool p :
  filledIn p = false ->
  App.buildPeriodCashFlows pool (Interfaces.startDate p) (Interfaces.endDate p)
    (Interfaces.startValue p) (Interfaces.endValue p) = [].
Proof.
  unfold filledIn, App.buildPeriodCashFlows, App.findStartValueForDate.
  destruct (App.truthy (Interfaces.startDate p)); [| reflexivity].
  destruct (App.truthy (Interfaces.endDate p)); [| reflexivity].
  destruct (App.truthy (Interfaces.endValue p)); cbn [negb orb andb];
    [| rewrite andb_false_r; reflexivity].
  rewrite andb_true_r. intros ->. reflexivity.
Qed.

(** X18.  A period gets the error "Please enter start date, end date,
    and values" exactly when one of its two dates or two values is empty;
    it then has no flows and no result.  A period with all four filled in
    has at least two flows. *)
Theorem periodResult_missing_input (periodFlows : list App.FlowInput)
    (p : Interfaces.Period) :
  let pr := MultiPeriodInput.periodResult periodFlows p in
  (MultiPeriodInput.error pr
   = Some "Please enter start date, end date, and values"%string
   <-> filledIn p = false)
  /\ (filledIn p = false ->
      MultiPeriodInput.cashFlows pr = [] /\ MultiPeriodInput.result pr = None)
  /\ (filledIn p = true -> (2 <= List.length (MultiPeriodInput.cashFlows pr))%nat).
Proof.
  cbv zeta. unfold MultiPeriodInput.periodResult.
  destruct (filledIn p) eqn:Ef.
  - rewrite (buildPeriodCashFlows_filledIn periodFlows p Ef).
    match goal with
    | |- context [sortByTime ?l] =>
        pose proof (SortFacts.sortByTime_length l) as Hlen; set (flows := sortByTime l) in *
    end.
    cbn [List.length] in Hlen. rewrite length_app in Hlen. cbn [List.length] in Hlen.
    destruct (Nat.ltb_spec (List.length flows) 2) as [Hlt | Hge]; [lia |].
    destruct (calculateXIRR flows); cbn [MultiPeriodInput.error MultiPeriodInput.cashFlows];
      (split; [split; discriminate |]); (split; [discriminate |]); intros _; exact Hge.
  - rewrite (buildPeriodCashFlows_not_filledIn periodFlows p Ef).
    cbn [List.length Nat.ltb Nat.leb MultiPeriodInput.error MultiPeriodInput.cashFlows
         MultiPeriodInput.result].
    split; [split; reflexivity |]. split; [intros _; split; reflexivity | discriminate].
Qed.

(** A sorted sequence of two flows or more whose last flow is not
    negative is accepted, and that flow is reported as the last one. *)
Lemma calculateXIRR_sorted_last l e :
  StronglySorted byTime (l ++ [e]) -> (1 <= List.length l)%nat ->
  (amount e <? 0) = false ->
  exists r, calculateXIRR (l ++ [e]) = Some r /\ lastCashFlow r = amount e.
Proof.
  intros Hs Hlen Hend. unfold calculateXIRR.
  destruct (Nat.ltb_spec (List.length (l ++ [e])) 2) as [Hlt | _];
    [rewrite length_app in Hlt; simpl in Hlt; lia |].
  rewrite (sortByTime_sorted_id _ Hs).
  destruct l as [| head rest]; [simpl in Hlen; lia |].
  cbn [app]. change (head :: rest ++ [e]) with ((head :: rest) ++ [e]).
  rewrite last_last, Hend. cbn [andb]. eexists. split; reflexivity.
Qed.

(** X19.  A period with both dates and both values filled in, a start
    date not after its end date and an end value that is not negative
    always gets a result, whatever the flows of the pool: the error "Unable
    to calculate XIRR" needs a negative end value or dates in the wrong
    order. *)
Theorem periodResult_has_result (periodFlows : list App.FlowInput)
    (p : Interfaces.Period) :
  filledIn p = true ->
  (getTime (App.newDate (Interfaces.startDate p))
   <= getTime (App.newDate (Interfaces.endDate p)))%Z ->
  (App.parseFloat (Interfaces.endValue p) <? 0) = false ->
  let pr := MultiPeriodInput.periodResult periodFlows p in
  MultiPeriodInput.error pr = None
  /\ exists r,
       MultiPeriodInput.result pr = Some r
       /\ calculateXIRR (MultiPeriodInput.cashFlows pr) = Some r
       /\ lastCashFlow r = App.parseFloat (Interfaces.endValue p).
Proof.
  intros Ef Hdates Hend. cbv zeta. unfold MultiPeriodInput.periodResult.
  rewrite (buildPeriodCashFlows_filledIn periodFlows p Ef).
  set (first := windowStart (Interfaces.startDate p) (Interfaces.startValue p)).
  set (inner := intermediates periodFlows (App.newDate (Interfaces.startDate p))
                  (App.newDate (Interfaces.endDate p))).
  set (final := windowEnd (Interfaces.endDate p) (Interfaces.endValue p)).
  change (first :: inner ++ [final]) with ((first :: inner) ++ [final]).
  assert (forall x, In x (first :: inner) -> byTime x final) as Hall.
  { intros x [<- | Hx]; unfold byTime, timeOf, final, first, windowStart, windowEnd;
      cbn [date].
    - exact Hdates.
    - apply intermediates_spec in Hx. destruct Hx as (entry & _ & _ & _ & Hb).
      unfold timeOf in Hb. apply Z.lt_le_incl, Hb. }
  pose proof (SortFacts.sortByTime_sorted ((first :: inner) ++ [final])) as Hs.
  rewrite (sortByTime_last_stays _ _ Hall) in *.
  assert (1 <= List.length (sortByTime (first :: inner)))%nat as Hlen
      by (rewrite SortFacts.sortByTime_length; simpl; lia).
  destruct (calculateXIRR_sorted_last _ final Hs Hlen Hend) as (r & Er & El).
  destruct (Nat.ltb_spec (List.length (sortByTime (first :: inner) ++ [final])) 2)
    as [Hlt | _]; [rewrite length_app in Hlt; cbn [List.length] in Hlt; lia |].
  rewrite Er.
  cbn [MultiPeriodInput.error MultiPeriodInput.result MultiPeriodInput.cashFlows].
  split; [reflexivity |]. exists r. repeat split; assumption.
Qed.

(** X20.  The method the exported JSON reports and the rate shown on
    screen.  When the Newton-Raphson residual is strictly the smaller in
    magnitude both are Newton-Raphson's.  When the bracketing residual is
    strictly the smaller, the rate shown is the bracketing one's; the export
    reports the bracketing method if the two rates differ by more than
    0.00001 and Newton-Raphson otherwise. *)
Theorem selectedMethod_and_shown_rate (cashFlows : list CashFlow) (r : XIRRResult) :
  calculateXIRR cashFlows = Some r ->
  ((abs (finalNPV (newtonRaphson r)) <? abs (finalNPV (brent r))) = true ->
   MultiPeriodInput.selectedMethod r = newtonRaphson r
   /\ xirr r = rate (newtonRaphson r))
  /\ ((abs (finalNPV (brent r)) <? abs (finalNPV (newtonRaphson r))) = true ->
      xirr r = rate (brent r)
      /\ MultiPeriodInput.selectedMethod r
         = (if hasDifference r then brent r else newtonRaphson r)
      /\ hasDifference r
         = Js.gtb (abs (rate (newtonRaphson r) - rate (brent r))) 0.00001).
Proof.
  intros E. apply SolverFacts.calculateXIRR_Some in E.
  destruct E as (first & final & _ & _ & _ & _ & _ & _ & Hx & Hd & Hh & _).
  unfold MultiPeriodInput.selectedMethod. split.
  - intros Hlt. rewrite Hx, Hlt. split; [| reflexivity].
    rewrite (FloatFacts.ltb_asym _ _ Hlt), andb_false_r. reflexivity.
  - intros Hlt. rewrite Hx, Hlt, (FloatFacts.ltb_asym _ _ Hlt), andb_true_r.
    split; [reflexivity |]. split; [reflexivity |]. rewrite Hh, Hd. reflexivity.
Qed.

Lemma periodResult_noError pool p :
  let pr := MultiPeriodInput.periodResult pool p in
  match MultiPeriodInput.result pr with
  | Some _ => MultiPeriodInput.error pr = None
  | None => exists e, MultiPeriodInput.error pr = Some e /\ Js.truthy e = true
  end.
Proof.
  cbv zeta. unfold MultiPeriodInput.periodResult.
  destruct (List.length _ <? 2)%nat;
    [cbn [MultiPeriodInput.result MultiPeriodInput.error]; eexists; split; reflexivity |].
  destruct (calculateXIRR _); cbn [MultiPeriodInput.result MultiPeriodInput.error];
    [reflexivity | eexists; split; reflexivity].
Qed.

Lemma windowsFrom_ids results :
  forall index,
    map MultiPeriodInput.Json.window_id (MultiPeriodInput.windowsFrom index results)
    = map Js.indexToString (seq (S index) (List.length results)).
Proof.
  induction results as [| pr rest IH]; intros index; [reflexivity |].
  cbn [MultiPeriodInput.windowsFrom map List.length seq]. rewrite IH. f_equal.
  unfold MultiPeriodInput.window. rewrite Nat.add_1_r.
  destruct (MultiPeriodInput.result pr); [| reflexivity].
  destruct (negb (MultiPeriodInput.noError pr)); reflexivity.
Qed.

Lemma window_withoutError pool p index :
  let pr := MultiPeriodInput.periodResult pool p in
  let w := MultiPeriodInput.window pr index in
  withoutError w
  = match MultiPeriodInput.result pr with
    | Some _ => MultiPeriodInput.noError pr
    | None => false
    end
  /\ (withoutError w = false ->
      MultiPeriodInput.Json.converged w = false
      /\ MultiPeriodInput.Json.iterations w = 0%nat
      /\ MultiPeriodInput.Json.xirr w = -999.99).
Proof.
  cbv zeta. pose proof (periodResult_noError pool p) as H. cbv zeta in H.
  unfold MultiPeriodInput.window, withoutError, MultiPeriodInput.noError in *.
  destruct (MultiPeriodInput.result (MultiPeriodInput.periodResult pool p)).
  - rewrite H. cbn. split; [reflexivity | discriminate].
  - cbn. split; [reflexivity |]. intros _. repeat split.
Qed.

Lemma windowsFrom_withoutError pool l :
  forall index,
    let results := map (MultiPeriodInput.periodResult pool) l in
    let exported := MultiPeriodInput.windowsFrom index results in
    List.length (filter withoutError exported)
    = List.length
        (filter
           (fun pr =>
              match MultiPeriodInput.result pr with
              | Some _ => MultiPeriodInput.noError pr
              | None => false
              end)
           results)
    /\ Forall
         (fun w =>
            withoutError w = false ->
            MultiPeriodInput.Json.converged w = false
            /\ MultiPeriodInput.Json.iterations w = 0%nat
            /\ MultiPeriodInput.Json.xirr w = -999.99)
         exported.
Proof.
  cbv zeta. induction l as [| p l IH]; intros index; [split; constructor |].
  cbn [map MultiPeriodInput.windowsFrom filter].
  destruct (IH (S index)) as [IHlen IHall].
  destruct (window_withoutError pool p index) as [Ew Herr]. split.
  - rewrite Ew.
    destruct (match MultiPeriodInput.result (MultiPeriodInput.periodResult pool p)
              with Some _ => _ | None => false end);
      cbn [List.length]; rewrite IHlen; reflexivity.
  - constructor; [exact Herr | exact IHall].
Qed.

(** X21.  The exported JSON has one window per period, numbered from 1
    in the order of the periods.  The windows without an error are as many
    as the calculations the results panel counts; a window with an error
    is not converged, has 0 iterations and the rate -999.99.  The panel's
    mismatches are among its calculations, one name each. *)
Theorem windows_and_summary (periodFlows : list App.FlowInput)
    (periodValues : Interfaces.PeriodValues) :
  let results := MultiPeriodInput.periodResults periodFlows periodValues in
  let exported := MultiPeriodInput.windows results in
  let '(totalCalculations, methodMismatches, mismatchPeriodNames) :=
    MultiPeriodInput.summary results in
  map MultiPeriodInput.Json.window_id exported
  = map Js.indexToString (seq 1 (List.length (Interfaces.periods periodValues)))
  /\ List.length (filter withoutError exported) = totalCalculations
  /\ Forall
       (fun w =>
          withoutError w = false ->
          MultiPeriodInput.Json.converged w = false
          /\ MultiPeriodInput.Json.iterations w = 0%nat
          /\ MultiPeriodInput.Json.xirr w = -999.99)
       exported
  /\ (methodMismatches <= totalCalculations
      <= List.length (Interfaces.periods periodValues))%nat
  /\ List.length mismatchPeriodNames = methodMismatches.
Proof.
  cbv zeta. unfold MultiPeriodInput.summary, MultiPeriodInput.windows,
    MultiPeriodInput.periodResults.
  destruct (windowsFrom_withoutError periodFlows (Interfaces.periods periodValues) 0)
    as [Hlen Hall].
  split; [rewrite windowsFrom_ids, length_map; reflexivity |].
  split; [exact Hlen |]. split; [exact Hall |]. split; [| apply length_map].
  split; [apply filter_length_le |].
  etransitivity; [apply filter_length_le |]. rewrite length_map. lia.
Qed.

End MultiPeriodForm.

(** X19 at the sample period. *)
Lemma periodResult_has_result_witness :
  Spec.filledIn Spec.samplePeriod = true
  /\ (Xirr.getTime (Ref.newDate "2024-01-01") <= Xirr.getTime (Ref.newDate "2024-12-31"))%Z
  /\ (Ref.parseFloat "115000" <? 0) = false
  /\ MultiPeriodInput.error
       (MultiPeriodInput.periodResult (rt := Ref.xirrRuntime) (ps := Ref.parsing)
          (tx := Ref.text) Spec.samplePool Spec.samplePeriod)
     = None.
Proof.
  assert (Spec.filledIn Spec.samplePeriod = true) as H1 by reflexivity.
  assert (Xirr.getTime (App.newDate (Parsing := Ref.parsing)
                          (Interfaces.startDate Spec.samplePeriod))
          <= Xirr.getTime (App.newDate (Parsing := Ref.parsing)
                             (Interfaces.endDate Spec.samplePeriod)))%Z as H2
      by (vm_compute; discriminate).
  assert ((App.parseFloat (Parsing := Ref.parsing) (Interfaces.endValue Spec.samplePeriod) <? 0)
          = false) as H3 by (vm_compute; reflexivity).
  split; [exact H1 |]. split; [exact H2 |]. split; [exact H3 |].
  exact (proj1 (@periodResult_has_result Ref.xirrRuntime Ref.parsing Ref.text
                  Spec.samplePool Spec.samplePeriod H1 H2 H3)).
Defined.

(** X20 at the doubling flows. *)
Lemma selectedMethod_and_shown_rate_witness :
  Xirr.calculateXIRR (rt := Ref.xirrRuntime) Spec.doubling = Some Spec.doublingResult
  /\ ((abs (Xirr.finalNPV (Xirr.newtonRaphson Spec.doublingResult))
       <? abs (Xirr.finalNPV (Xirr.brent Spec.doublingResult))) = true ->
      MultiPeriodInput.selectedMethod Spec.doublingResult
      = Xirr.newtonRaphson Spec.doublingResult
      /\ Xirr.xirr Spec.doublingResult = Xirr.rate (Xirr.newtonRaphson Spec.doublingResult)).
Proof.
  assert (Xirr.calculateXIRR (rt := Ref.xirrRuntime) Spec.doubling
          = Some Spec.doublingResult) as E by (vm_compute; reflexivity).
  split; [exact E |].
  exact (proj1 (@selectedMethod_and_shown_rate Ref.xirrRuntime Spec.doubling
                  Spec.doublingResult E)).
Defined.

(** ** The multi-period analysis *)

Section Analysis.
Import Xirr Spec.
Context {rt : Runtime} {cal : Calendar}.

Lemma degenerate_of_rejected cashFlows :
  (2 <= List.length cashFlows)%nat -> calculateXIRR cashFlows = None ->
  degenerate cashFlows = true.
Proof.
  intros Hlen Hnone. destruct (degenerate cashFlows) eqn:Ed; [reflexivity |].
  destruct (SolverFacts.calculateXIRR_accepts _ Hlen Ed) as [res Hres]. congruence.
Qed.

(** A result in a row of the analysis is a result of [calculateXIRR]. *)
Lemma periodResults_result cashFlows row r :
  In row (MultiPeriodAnalysis.periodResults cashFlows) ->
  MultiPeriodAnalysis.result row = Some r ->
  exists flows, calculateXIRR flows = Some r.
Proof.
  unfold MultiPeriodAnalysis.periodResults.
  destruct (List.length cashFlows <? 2)%nat; [intros [] |].
  destruct (sortByTime cashFlows) as [| first rest]; [intros [] |].
  intros Hin. apply in_map_iff in Hin. destruct Hin as ([period years] & <- & _).
  destruct (List.length _ <? 2)%nat; [discriminate |].
  match goal with
  | |- context [calculateXIRR ?l] => destruct (calculateXIRR l) as [x |] eqn:Ex
  end; [| discriminate].
  cbn [MultiPeriodAnalysis.result]. intros [= <-]. eexists. exact Ex.
Qed.

(** X22.  The analysis has no rows for fewer than two flows.  Otherwise
    it has the three rows "1 Year", "5 Years" and "10 Years", in this
    order, each over the period of that many years that ends at the date of
    the latest flow; a row carries either the result of [calculateXIRR] on
    the flows [filterCashFlowsByPeriod] gives for its period, or an error:
    "Insufficient data for this period" when these are fewer than two,
    "Unable to calculate (invalid cash flow pattern)" when they are
    degenerate. *)
Theorem analysis_rows (cashFlows : list CashFlow) :
  let rows := MultiPeriodAnalysis.periodResults cashFlows in
  ((List.length cashFlows < 2)%nat -> rows = [])
  /\ ((2 <= List.length cashFlows)%nat ->
      exists latest,
        chronologicallyLast cashFlows = Some latest
        /\ (forall g, In g cashFlows -> byTime g latest)
        /\ map (fun row => (MultiPeriodAnalysis.period row, MultiPeriodAnalysis.years row))
             rows
           = [("1 Year"%string, 1%Z); ("5 Years"%string, 5%Z); ("10 Years"%string, 10%Z)]
        /\ Forall
             (fun row =>
                let flows :=
                  filterCashFlowsByPeriod cashFlows (date latest)
                    (MultiPeriodAnalysis.years row) in
                match MultiPeriodAnalysis.result row with
                | Some r =>
                    MultiPeriodAnalysis.error row = None
                    /\ calculateXIRR flows = Some r
                | None =>
                    (MultiPeriodAnalysis.error row
                     = Some "Insufficient data for this period"%string
                     /\ (List.length flows < 2)%nat)
                    \/ (MultiPeriodAnalysis.error row
                        = Some "Unable to calculate (invalid cash flow pattern)"%string
                        /\ (2 <= List.length flows)%nat
                        /\ degenerate flows = true)
                end)
             rows).
Proof.
  cbv zeta. unfold MultiPeriodAnalysis.periodResults.
  destruct (Nat.ltb_spec (List.length cashFlows) 2) as [Hlt | Hge].
  { split; [reflexivity | lia]. }
  split; [lia |]. intros _.
  pose proof (SortFacts.sortByTime_length cashFlows) as Hlen.
  destruct (sortByTime cashFlows) as [| first rest] eqn:Es; [simpl in Hlen; lia |].
  assert (chronologicallyLast cashFlows = Some (last (first :: rest) first)) as Hlast
      by (unfold chronologicallyLast; rewrite Es; reflexivity).
  exists (last (first :: rest) first).
  split; [exact Hlast |].
  split; [apply (SortFacts.chronologicallyLast_latest _ _ Hlast) |].
  set (endDate := date (last (first :: rest) first)).
  assert (forall period years,
            let row :=
              (let filteredFlows := filterCashFlowsByPeriod cashFlows endDate years in
               if (List.length filteredFlows <? 2)%nat
               then MultiPeriodAnalysis.mkPeriodResult period years None
                      (Some "Insufficient data for this period"%string)
               else
                 match calculateXIRR filteredFlows with
                 | None =>
                     MultiPeriodAnalysis.mkPeriodResult period years None
                       (Some "Unable to calculate (invalid cash flow pattern)"%string)
                 | Some xirrResult =>
                     MultiPeriodAnalysis.mkPeriodResult period years (Some xirrResult) None
                 end) in
            (MultiPeriodAnalysis.period row, MultiPeriodAnalysis.years row) = (period, years)
            /\ match MultiPeriodAnalysis.result row with
               | Some r =>
                   MultiPeriodAnalysis.error row = None
                   /\ calculateXIRR
                        (filterCashFlowsByPeriod cashFlows endDate
                           (MultiPeriodAnalysis.years row)) = Some r
               | None =>
                   (MultiPeriodAnalysis.error row
                    = Some "Insufficient data for this period"%string
                    /\ (List.length
                          (filterCashFlowsByPeriod cashFlows endDate
                             (MultiPeriodAnalysis.years row)) < 2)%nat)
                   \/ (MultiPeriodAnalysis.error row
                       = Some "Unable to calculate (invalid cash flow pattern)"%string
                       /\ (2 <= List.length
                                  (filterCashFlowsByPeriod cashFlows endDate
                                     (MultiPeriodAnalysis.years row)))%nat
                       /\ degenerate
                            (filterCashFlowsByPeriod cashFlows endDate
                               (MultiPeriodAnalysis.years row)) = true)
               end) as Hrow.
  { intros period years. cbv zeta.
    destruct (Nat.ltb_spec
                (List.length (filterCashFlowsByPeriod cashFlows endDate years)) 2)
      as [Hshort | Hlong].
    - cbn. split; [reflexivity |]. left. split; [reflexivity | exact Hshort].
    - destruct (calculateXIRR (filterCashFlowsByPeriod cashFlows endDate years)) eqn:Ex.
      + cbn. rewrite Ex. repeat split.
      + cbn. split; [reflexivity |]. right. split; [reflexivity |].
        split; [exact Hlong | apply degenerate_of_rejected; assumption]. }
  unfold MultiPeriodAnalysis.periods. cbn [map].
  pose proof (Hrow "1 Year"%string 1%Z) as [H1 R1].
  pose proof (Hrow "5 Years"%string 5%Z) as [H5 R5].
  pose proof (Hrow "10 Years"%string 10%Z) as [H10 R10].
  split.
  - cbv beta iota zeta in H1, H5, H10 |- *. rewrite H1, H5, H10. reflexivity.
  - repeat (apply Forall_cons; [assumption |]). apply Forall_nil.
Qed.

(** X23.  The mismatches [methodStats] counts are among the calculations
    it counts, these are the rows that have a result, and each mismatch
    is a row with a result on which the two solvers' rates differ by more
    than 0.00001, named once. *)
Theorem methodStats_counts (cashFlows : list CashFlow) :
  let rows := MultiPeriodAnalysis.periodResults cashFlows in
  let '(totalCalculations, methodMismatches, mismatchPeriodNames) :=
    MultiPeriodAnalysis.methodStats rows in
  (methodMismatches <= totalCalculations <= 3)%nat
  /\ List.length mismatchPeriodNames = methodMismatches
  /\ forall name,
       In name mismatchPeriodNames ->
       exists row r,
         In row rows /\ MultiPeriodAnalysis.period row = name
         /\ MultiPeriodAnalysis.result row = Some r
         /\ Js.gtb (abs (rate (newtonRaphson r) - rate (brent r))) 0.00001 = true.
Proof.
  cbv zeta. unfold MultiPeriodAnalysis.methodStats.
  split; [split; [apply filter_length_le |] |].
  { etransitivity; [apply filter_length_le |].
    unfold MultiPeriodAnalysis.periodResults.
    destruct (List.length cashFlows <? 2)%nat; [simpl; lia |].
    destruct (sortByTime cashFlows); [simpl; lia |].
    rewrite length_map. simpl. lia. }
  split; [apply length_map |].
  intros name Hin. apply in_map_iff in Hin. destruct Hin as (row & <- & Hrow).
  apply filter_In in Hrow. destruct Hrow as [Hrow Hdiff].
  apply filter_In in Hrow. destruct Hrow as [Hrow _].
  destruct (MultiPeriodAnalysis.result row) as [r |] eqn:Er; [| discriminate].
  exists row, r. split; [exact Hrow |]. split; [reflexivity |]. split; [exact Er |].
  destruct (periodResults_result cashFlows row r Hrow Er) as [flows Hx].
  apply SolverFacts.calculateXIRR_Some in Hx.
  destruct Hx as (first & final & _ & _ & _ & _ & _ & _ & _ & Hd & Hh & _).
  rewrite <- Hd, <- Hh. exact Hdiff.
Qed.

End Analysis.

(** ** Descriptions play no part in the calculation *)

Section Descriptions.
Import Xirr Spec.
Context {rt : Runtime} {ps : App.Parsing}.

Lemma alike_fold {A} (step : A -> CashFlow -> A) l l' :
  (forall a f f', dateAndAmount f = dateAndAmount f' -> step a f = step a f') ->
  map dateAndAmount l = map dateAndAmount l' -> forall a, fold_left step l a = fold_left step l' a.
Proof.
  intros Hstep. revert l'. induction l as [| f l IH]; intros [| f' l']; try discriminate;
    [reflexivity |].
  cbn [map fold_left]. intros [= Hd Ha Hl] a.
  rewrite (Hstep a f f') by (unfold dateAndAmount; congruence).
  apply IH. exact Hl.
Qed.

Lemma alike_filter (p : CashFlow -> bool) l l' :
  (forall f f', dateAndAmount f = dateAndAmount f' -> p f = p f') ->
  map dateAndAmount l = map dateAndAmount l' -> map dateAndAmount (filter p l) = map dateAndAmount (filter p l').
Proof.
  intros Hp. revert l'. induction l as [| f l IH]; intros [| f' l']; try discriminate;
    [reflexivity |].
  cbn [map filter]. intros [= Hd Ha Hl].
  rewrite (Hp f f') by (unfold dateAndAmount; congruence).
  destruct (p f'); [| apply IH, Hl].
  cbn [map]. unfold dateAndAmount at 1 3. rewrite Hd, Ha. f_equal. apply IH, Hl.
Qed.

Lemma alike_insertByTime x x' l l' :
  dateAndAmount x = dateAndAmount x' -> map dateAndAmount l = map dateAndAmount l' ->
  map dateAndAmount (insertByTime x l) = map dateAndAmount (insertByTime x' l').
Proof.
  intros [= Hd Ha]. revert l'.
  induction l as [| y l IH]; intros [| y' l']; try discriminate.
  - intros _. cbn. unfold dateAndAmount. rewrite Hd, Ha. reflexivity.
  - cbn [map insertByTime]. intros [= Hyd Hya Hl]. rewrite Hd, Hyd.
    destruct (getTime (date x') <=? getTime (date y'))%Z; cbn [map];
      unfold dateAndAmount at 1 3.
    + rewrite Hd, Ha. f_equal. unfold dateAndAmount at 1 3. rewrite Hyd, Hya.
      f_equal. exact Hl.
    + rewrite Hyd, Hya. f_equal. apply IH, Hl.
Qed.

Lemma alike_sortByTime l l' : map dateAndAmount l = map dateAndAmount l' -> map dateAndAmount (sortByTime l) = map dateAndAmount (sortByTime l').
Proof.
  revert l'. induction l as [| f l IH]; intros [| f' l']; try discriminate;
    [reflexivity |].
  cbn [map]. intros [= Hd Ha Hl]. cbn [sortByTime fold_right].
  apply alike_insertByTime; [unfold dateAndAmount; congruence |].
  apply IH, Hl.
Qed.

Lemma alike_last l l' d d' :
  dateAndAmount d = dateAndAmount d' -> map dateAndAmount l = map dateAndAmount l' ->
  dateAndAmount (last l d) = dateAndAmount (last l' d').
Proof.
  intros Hd. revert l'. induction l as [| f l IH]; intros [| f' l']; try discriminate;
    [intros _; exact Hd |].
  cbn [map]. intros [= Hfd Hfa Hl].
  destruct l as [| g l]; destruct l' as [| g' l']; try discriminate.
  - cbn. unfold dateAndAmount. congruence.
  - change (last (f :: g :: l) d) with (last (g :: l) d).
    change (last (f' :: g' :: l') d') with (last (g' :: l') d').
    apply IH, Hl.
Qed.

Lemma alike_calculateNPV l l' :
  map dateAndAmount l = map dateAndAmount l' -> forall rate startDate,
    calculateNPV rate l startDate = calculateNPV rate l' startDate.
Proof.
  intros H rate startDate. unfold calculateNPV. apply alike_fold; [| exact H].
  intros a f f' [= -> ->]. reflexivity.
Qed.

Lemma alike_calculateDerivativeNPV l l' :
  map dateAndAmount l = map dateAndAmount l' -> forall rate startDate,
    calculateDerivativeNPV rate l startDate = calculateDerivativeNPV rate l' startDate.
Proof.
  intros H rate startDate. unfold calculateDerivativeNPV. apply alike_fold; [| exact H].
  intros a f f' [= -> ->]. reflexivity.
Qed.

Lemma alike_newtonLoop l l' startDate :
  map dateAndAmount l = map dateAndAmount l' -> forall fuel rate iterations,
    newtonLoop l startDate fuel rate iterations
    = newtonLoop l' startDate fuel rate iterations.
Proof.
  intros H. induction fuel as [| fuel IH]; intros rate iterations; [reflexivity |].
  cbn [newtonLoop].
  rewrite (alike_calculateNPV l l' H), (alike_calculateDerivativeNPV l l' H), IH.
  reflexivity.
Qed.

Lemma alike_brentLoop l l' startDate :
  map dateAndAmount l = map dateAndAmount l' -> forall fuel a b c d e fa fb fc iterations,
    brentLoop l startDate fuel a b c d e fa fb fc iterations
    = brentLoop l' startDate fuel a b c d e fa fb fc iterations.
Proof.
  intros H. induction fuel as [| fuel IH]; intros a b c d e fa fb fc iterations;
    [reflexivity |].
  cbn [brentLoop].
  destruct (if abs fc <? abs fb then _ else _) as [[[[[a1 b1] c1] fa1] fb1] fc1].
  destruct ((abs (0.5 * (c1 - b1)) <=? 2 * precision * abs b1 + precision)
            || (abs fb1 <? precision)); [reflexivity |].
  repeat first
    [ rewrite (alike_calculateNPV l l' H)
    | match goal with
      | |- context [if ?g then _ else _] => destruct g
      end ];
    apply IH.
Qed.

Lemma alike_calculateWithNewtonRaphson l l' startDate guess :
  map dateAndAmount l = map dateAndAmount l' ->
  calculateWithNewtonRaphson l startDate guess
  = calculateWithNewtonRaphson l' startDate guess.
Proof.
  intros H. unfold calculateWithNewtonRaphson.
  rewrite (alike_newtonLoop l l' startDate H).
  destruct (newtonLoop l' startDate maxIterations guess 0) as [[r n] c].
  rewrite (alike_calculateNPV l l' H). reflexivity.
Qed.

Lemma alike_calculateWithBrent l l' startDate lowerBound upperBound :
  map dateAndAmount l = map dateAndAmount l' ->
  calculateWithBrent l startDate lowerBound upperBound
  = calculateWithBrent l' startDate lowerBound upperBound.
Proof.
  intros H. unfold calculateWithBrent.
  rewrite !(alike_calculateNPV l l' H).
  destruct (Js.geb _ 0);
    rewrite (alike_brentLoop l l' startDate H);
    match goal with
    | |- context [brentLoop ?cf ?sd ?fu ?a ?b ?c ?d ?e ?fa ?fb ?fc 0] =>
        destruct (brentLoop cf sd fu a b c d e fa fb fc 0) as [[r n] k]
    end;
    rewrite (alike_calculateNPV l l' H); reflexivity.
Qed.

(** [calculateXIRR] on two sequences with the same dates and amounts,
    flow by flow. *)
Lemma calculateXIRR_alike (cashFlows cashFlows' : list CashFlow) :
  map dateAndAmount cashFlows = map dateAndAmount cashFlows' ->
  calculateXIRR cashFlows = calculateXIRR cashFlows'.
Proof.
  intros H. unfold calculateXIRR.
  assert (List.length cashFlows = List.length cashFlows') as ->
      by (rewrite <- (length_map dateAndAmount cashFlows), H; apply length_map).
  destruct (List.length cashFlows' <? 2)%nat; [reflexivity |].
  pose proof (alike_sortByTime _ _ H) as Hs.
  destruct (sortByTime cashFlows) as [| first rest];
    destruct (sortByTime cashFlows') as [| first' rest']; try discriminate;
    [reflexivity |].
  remember (first :: rest) as sorted eqn:Es.
  remember (first' :: rest') as sorted' eqn:Es'.
  assert (dateAndAmount first = dateAndAmount first') as Hfirst
      by (subst; cbn [map] in Hs; congruence).
  clear Es Es'.
  pose proof (alike_last sorted sorted' first first' Hfirst Hs) as Hlast.
  injection Hfirst as Hfd Hfa. injection Hlast as Hld Hla.
  assert (sumAmounts sorted = sumAmounts sorted') as Hnet.
  { unfold sumAmounts. apply alike_fold; [| exact Hs]. intros a f f' [= _ ->]. reflexivity. }
  assert (sumAmounts (filter (fun f => Js.gtb (amount f) 0) sorted)
          = sumAmounts (filter (fun f => Js.gtb (amount f) 0) sorted')) as Hin.
  { unfold sumAmounts. apply alike_fold; [intros a f f' [= _ ->]; reflexivity |].
    apply alike_filter; [| exact Hs]. intros f f' [= _ ->]. reflexivity. }
  assert (fold_left (fun sum flow => sum + abs (amount flow))
            (filter (fun f => amount f <? 0) sorted) 0
          = fold_left (fun sum flow => sum + abs (amount flow))
              (filter (fun f => amount f <? 0) sorted') 0) as Hout.
  { apply alike_fold; [intros a f f' [= _ ->]; reflexivity |].
    apply alike_filter; [| exact Hs]. intros f f' [= _ ->]. reflexivity. }
  rewrite Hfd, Hfa, Hld, Hla, Hnet, Hin, Hout.
  rewrite (alike_calculateWithNewtonRaphson sorted sorted' _ _ Hs).
  rewrite (alike_calculateWithBrent sorted sorted' _ _ _ Hs).
  reflexivity.
Qed.

Lemma alike_existsb (p : CashFlow -> bool) l l' :
  (forall f f', dateAndAmount f = dateAndAmount f' -> p f = p f') ->
  map dateAndAmount l = map dateAndAmount l' -> existsb p l = existsb p l'.
Proof.
  intros Hp. revert l'. induction l as [| f l IH]; intros [| f' l']; try discriminate;
    [reflexivity |].
  cbn [map existsb]. intros [= Hd Ha Hl].
  rewrite (Hp f f') by (unfold dateAndAmount; congruence).
  rewrite (IH l' Hl). reflexivity.
Qed.

Lemma updateFlow_description_alike id' value flows :
  map dateAndAmount (enteredFlows (App.updateFlow id' App.KeyDescription value flows))
  = map dateAndAmount (enteredFlows flows).
Proof.
  unfold enteredFlows, App.updateFlow. induction flows as [| f l IH]; [reflexivity |].
  cbn [map filter].
  assert (complete (if String.eqb (App.id f) id'
                    then App.withField f App.KeyDescription value else f)
          = complete f) as -> by (destruct (String.eqb (App.id f) id'); reflexivity).
  destruct (complete f); [| exact IH].
  cbn [map]. rewrite IH. f_equal.
  destruct (String.eqb (App.id f) id'); reflexivity.
Qed.

(** X24.  Descriptions play no part in the calculation.
    [calculateXIRR] reads the dates and the amounts only: two sequences
    with the same dates and amounts, flow by flow, get the same outcome.
    So editing the description of a form entry with [updateFlow], which
    keeps the ids and sets the description of the entries of the given id,
    leaves the outcome of [calculateIRR] as it was. *)
Theorem descriptions_play_no_part :
  (forall cashFlows cashFlows' : list CashFlow,
      map dateAndAmount cashFlows = map dateAndAmount cashFlows' ->
      calculateXIRR cashFlows = calculateXIRR cashFlows')
  /\ (forall (id' value : string) (flows : list App.FlowInput),
        let flows' := App.updateFlow id' App.KeyDescription value flows in
        map App.id flows' = map App.id flows
        /\ (forall f, In f flows' -> App.id f = id' -> App.description f = value)
        /\ App.calculateIRR flows' = App.calculateIRR flows).
Proof.
  split; [exact calculateXIRR_alike |]. intros id' value flows. cbv zeta. split.
  { unfold App.updateFlow. rewrite map_map. apply map_ext. intros f.
    destruct (String.eqb (App.id f) id'); reflexivity. }
  split.
  { unfold App.updateFlow. intros f Hin Hid. apply in_map_iff in Hin.
    destruct Hin as (g & <- & _).
    destruct (String.eqb (App.id g) id') eqn:E; [reflexivity |].
    apply String.eqb_neq in E. contradiction. }
  pose proof (updateFlow_description_alike id' value flows) as Halike.
  unfold App.calculateIRR.
  change (map _ (filter _ (App.updateFlow id' App.KeyDescription value flows)))
    with (enteredFlows (App.updateFlow id' App.KeyDescription value flows)).
  change (map _ (filter _ flows)) with (enteredFlows flows).
  assert (List.length (enteredFlows (App.updateFlow id' App.KeyDescription value flows))
          = List.length (enteredFlows flows)) as ->
      by (rewrite <- (length_map dateAndAmount), Halike; apply length_map).
  rewrite (alike_existsb (fun f => amount f <? 0) _ _
             ltac:(intros f f' [= _ Ha]; cbv beta; rewrite Ha; reflexivity) Halike).
  rewrite (alike_existsb (fun f => Js.gtb (amount f) 0) _ _
             ltac:(intros f f' [= _ Ha]; cbv beta; rewrite Ha; reflexivity) Halike).
  rewrite (calculateXIRR_alike _ _ Halike). reflexivity.
Qed.

End Descriptions.
